(** * r.colors.lc: colour assignment for a land cover classification

    A shallow embedding of [src/r.colors.lc.py] (the [main] function, source
    lines 70-169) and the properties of its strategy selection and of its
    random colour fallback.

    The script is a sequence of calls to GRASS GIS services.  It is embedded
    in a small monad that threads the log of the calls made so far (with the
    answers they got) and the number of random draws, and that stops at
    [grass.fatal] or at a Python exception.  The services answer through a
    [world], which may answer any call differently each time it is asked.

    What the model leaves out: a GRASS module that is run is taken to end
    without an error; the messages are the untranslated ones; the text
    written to a pipe is logged before its encoding to bytes. *)

From Stdlib Require Import String Ascii DecimalString.
From Stdlib Require Import List ZArith NArith Lia Bool Permutation.
Import ListNotations.

(** ** Python text *)

(** A Python [str] is the list of its code points. *)
Definition pystr := list N.

(** A string literal of the source (the literals of the script are ASCII). *)
Fixpoint lit (s : string) : pystr :=
  match s with
  | EmptyString => []
  | String c s' => N_of_ascii c :: lit s'
  end.

Arguments lit : simpl never.

Definition pystr_eq_dec : forall a b : pystr, {a = b} + {a <> b} :=
  list_eq_dec N.eq_dec.

(** [a == b] on two [str] values. *)
Definition pystr_eqb (a b : pystr) : bool :=
  if pystr_eq_dec a b then true else false.

(** Truth value of a [str]: only the empty string is false. *)
Definition truthy (s : pystr) : bool :=
  match s with
  | [] => false
  | _ :: _ => true
  end.

(** [c in s] for a one-character string [c]. *)
Definition contains_char (c : N) (s : pystr) : bool :=
  existsb (N.eqb c) s.

Definition TAB : N := 9.
Definition NEWLINE : N := 10.
Definition CR : N := 13.
Definition PIPE : N := 124.

(** The line boundaries of [str.splitlines]: \n, \v, \f, \r, \x1c, \x1d,
    \x1e, \x85, U+2028 and U+2029 (and \r\n, which counts once). *)
Definition is_line_boundary (c : N) : bool :=
  (N.eqb c 10 || N.eqb c 11 || N.eqb c 12 || N.eqb c 13
   || N.eqb c 28 || N.eqb c 29 || N.eqb c 30
   || N.eqb c 133 || N.eqb c 8232 || N.eqb c 8233)%bool.

(** [splitlines_from after_cr cur s]: the lines of [s], where [cur] holds
    (reversed) the characters of the line being read and [after_cr] tells
    that the previous character was a \r, so that a \n now belongs to the
    same line break. *)
Fixpoint splitlines_from (after_cr : bool) (cur : pystr) (s : pystr)
  : list pystr :=
  match s with
  | [] => match cur with [] => [] | _ :: _ => [rev cur] end
  | c :: rest =>
      if (N.eqb c NEWLINE && after_cr)%bool then splitlines_from false cur rest
      else if is_line_boundary c
           then rev cur :: splitlines_from (N.eqb c CR) [] rest
           else splitlines_from false (c :: cur) rest
  end.

(** [s.splitlines()]: no line is produced after a final line break. *)
Definition splitlines (s : pystr) : list pystr :=
  splitlines_from false [] s.

(** [s.split(sep)[0]] for a one-character [sep]: what precedes the first
    separator, the whole string when there is none. *)
Fixpoint split_head (sep : N) (s : pystr) : pystr :=
  match s with
  | [] => []
  | c :: rest => if N.eqb c sep then [] else c :: split_head sep rest
  end.

(** [sep.join(parts)]. *)
Fixpoint join (sep : pystr) (parts : list pystr) : pystr :=
  match parts with
  | [] => []
  | [p] => p
  | p :: ps => p ++ sep ++ join sep ps
  end.

(** [str(z)] for an integer, in decimal. *)
Definition str_of_Z (z : Z) : pystr :=
  lit (NilZero.string_of_int (Z.to_int z)).

(** [_( )]: the message catalogue; without a translation the message
    itself. *)
Definition gettext (msg : pystr) : pystr := msg.

(** ** Values, calls and the world *)

(** The Python values passed to and returned by the services. *)
Inductive pyval :=
| PStr (s : pystr)
| PBool (b : bool)
| PInt (z : Z)
| PNone.

(** Keyword arguments and dictionaries keep the order of their entries. *)
Definition kwargs := list (pystr * pyval).
Definition dict := list (pystr * pyval).

(** [d.keys()]. *)
Definition keys (d : dict) : list pystr := map fst d.

(** [d[k]], the first entry under [k]. *)
Fixpoint getitem (d : dict) (k : pystr) : option pyval :=
  match d with
  | [] => None
  | (k', v) :: d' => if pystr_eq_dec k' k then Some v else getitem d' k
  end.

(** [v == s] for a [str] literal [s]: values of another type are different. *)
Definition pyval_eq_str (v : pyval) (s : pystr) : bool :=
  match v with
  | PStr s' => pystr_eqb s' s
  | _ => false
  end.

(** A process started by [grass.feed_command], named by the position of its
    start in the log. *)
Definition process := nat.

(** One call of the script to the outside, with the answer it got. *)
Inductive event :=
| EFindProgram (pgm : pystr) (args : list pystr) (found : bool)
| EFatal (msg : pystr)
| EMessage (msg : pystr)
| EWarning (msg : pystr)
| EParseCommand (prog : pystr) (kw : kwargs) (result : dict)
| ERunCommand (prog : pystr) (kw : kwargs)
| EReadCommand (prog : pystr) (kw : kwargs) (out : pystr)
| EFeedCommand (prog : pystr) (kw : kwargs) (proc : process)
| EStdinWrite (proc : process) (data : pystr)
| EStdinClose (proc : process)
| EWait (proc : process)
| ERasterInfo (map : pystr) (info : dict).

(** The services the script talks to.  Every answer may depend on all that
    happened before, so that asking twice may give two answers.  [entropy k]
    is the raw material of the [k]-th random draw. *)
Record world := {
  find_program_ans : list event -> pystr -> list pystr -> bool;
  parse_command_ans : list event -> pystr -> kwargs -> dict;
  read_command_ans : list event -> pystr -> kwargs -> pystr;
  raster_info_ans : list event -> pystr -> dict;
  entropy : nat -> Z
}.

(** The command line options, as [grass.parser] returns them: an option
    that was not given is the empty string. *)
Record options := {
  referencemap : pystr;
  map_ : pystr;
  color_column : pystr;
  class_column : pystr
}.

(** ** The monad of the script *)

Record state := {
  trace : list event;  (* the calls made so far, oldest first *)
  draws : nat          (* the number of random draws made so far *)
}.

Definition init : state := {| trace := []; draws := 0 |}.

Inductive outcome (A : Type) :=
| Ok (a : A)              (* ran to its end *)
| Fatal (msg : pystr)     (* stopped by [grass.fatal] *)
| Raised (exn : pystr).   (* stopped by a Python exception *)

Arguments Ok {A} a.
Arguments Fatal {A} msg.
Arguments Raised {A} exn.

Definition M (A : Type) := world -> state -> outcome A * state.

Definition ret {A} (a : A) : M A := fun _ st => (Ok a, st).

Definition bind {A B} (c : M A) (k : A -> M B) : M B :=
  fun w st =>
    match c w st with
    | (Ok a, st') => k a w st'
    | (Fatal msg, st') => (Fatal msg, st')
    | (Raised exn, st') => (Raised exn, st')
    end.

Notation "x <- c ;; k" := (bind c (fun x => k))
  (at level 61, c at next level, right associativity).
Notation "c ;;; k" := (bind c (fun _ => k))
  (at level 61, right associativity).

Definition log (e : event) (st : state) : state :=
  {| trace := trace st ++ [e]; draws := draws st |}.

Definition raise {A} (exn : pystr) : M A := fun _ st => (Raised exn, st).

(** [grass.find_program(pgm, *args)]. *)
Definition find_program (pgm : pystr) (args : list pystr) : M bool :=
  fun w st =>
    let found := find_program_ans w (trace st) pgm args in
    (Ok found, log (EFindProgram pgm args found) st).

(** [grass.fatal(msg)]: prints the message and ends the script. *)
Definition fatal {A} (msg : pystr) : M A :=
  fun _ st => (Fatal msg, log (EFatal msg) st).

Definition message (msg : pystr) : M unit :=
  fun _ st => (Ok tt, log (EMessage msg) st).

Definition warning (msg : pystr) : M unit :=
  fun _ st => (Ok tt, log (EWarning msg) st).

(** [grass.parse_command(prog, **kw)]: runs the module and returns its
    output as a dictionary. *)
Definition parse_command (prog : pystr) (kw : kwargs) : M dict :=
  fun w st =>
    let d := parse_command_ans w (trace st) prog kw in
    (Ok d, log (EParseCommand prog kw d) st).

(** [grass.run_command(prog, **kw)]. *)
Definition run_command (prog : pystr) (kw : kwargs) : M unit :=
  fun _ st => (Ok tt, log (ERunCommand prog kw) st).

(** [grass.read_command(prog, **kw)]: runs the module and returns what it
    printed. *)
Definition read_command (prog : pystr) (kw : kwargs) : M pystr :=
  fun w st =>
    let out := read_command_ans w (trace st) prog kw in
    (Ok out, log (EReadCommand prog kw out) st).

(** [grass.feed_command(prog, **kw)]: starts the module with a pipe to its
    standard input and returns the process without waiting for it. *)
Definition feed_command (prog : pystr) (kw : kwargs) : M process :=
  fun _ st =>
    let p := length (trace st) in
    (Ok p, log (EFeedCommand prog kw p) st).

(** [p.stdin.write(data)], [p.stdin.close()] and [p.wait()]. *)
Definition stdin_write (p : process) (data : pystr) : M unit :=
  fun _ st => (Ok tt, log (EStdinWrite p data) st).

Definition stdin_close (p : process) : M unit :=
  fun _ st => (Ok tt, log (EStdinClose p) st).

Definition wait (p : process) : M unit :=
  fun _ st => (Ok tt, log (EWait p) st).

(** [grass.raster_info(map)]. *)
Definition raster_info (map : pystr) : M dict :=
  fun w st =>
    let info := raster_info_ans w (trace st) map in
    (Ok info, log (ERasterInfo map info) st).

(** [random.randrange(n)]: an integer of [range(n)]; a [ValueError] when the
    range is empty. *)
Definition randrange (n : Z) : M Z :=
  fun w st =>
    if (n <=? 0)%Z then (Raised (lit "ValueError"), st)
    else (Ok (entropy w (draws st) mod n)%Z,
          {| trace := trace st; draws := S (draws st) |}).

(** [grass.encode(s)] and [s.encode()] turn the text into the bytes sent
    down the pipe; the log keeps the text. *)
Definition encode (s : pystr) : pystr := s.

(** [d[k]] in the monad: a [KeyError] when [k] is missing. *)
Definition subscript (d : dict) (k : pystr) : M pyval :=
  match getitem d k with
  | Some v => ret v
  | None => raise (lit "KeyError")
  end.

(** ** The script *)

(** The install hint of both fatal messages (source lines 84 and 92). *)
Definition install_hint : pystr := lit "g.extension r.colors.fuzzy_lc url=...".

Definition v_colors_to_rast_missing : pystr :=
  gettext (lit "The 'v.colors.to.rast' module was not found, install it first:"
           ++ [NEWLINE] ++ install_hint).

Definition r_colors_fuzzy_lc_missing : pystr :=
  gettext (lit "The 'r.colors.fuzzy_lc' module was not found, install it first:"
           ++ [NEWLINE] ++ install_hint).

Definition missing_labels_warning : pystr :=
  gettext (lit "Input map has missing category labels. Setting random colors...").

(** Source lines 138-141: the message, with [n] in the place of [%d]. *)
Definition more_cells_warning (n : nat) : pystr :=
  lit "More cells values than " ++ str_of_Z (Z.of_nat n)
  ++ lit ": using r.colors color=random; r.colors.out_sld does not work correctly".

(** Source line 105: the message, with [column] in the place of [%s]. *)
Definition using_colors_message (column : pystr) : pystr :=
  lit "Using colors from column <" ++ column ++ lit ">...".

(** Source lines 99-102: the flag starts true and every label without a tab
    sets it to false. *)
Definition has_cat_label (map_class_labels : list pystr) : bool :=
  fold_left
    (fun flag label => if negb (contains_char TAB label) then false else flag)
    map_class_labels true.

Definition colors_to_generate : nat := 40.

(** ["{}:{}:{}".format(r, g, b)]. *)
Definition format_color (r g b : Z) : pystr :=
  str_of_Z r ++ lit ":" ++ str_of_Z g ++ lit ":" ++ str_of_Z b.

(** Source line 127: one colour, its three channels drawn in turn. *)
Definition random_color : M pystr :=
  r <- randrange 255 ;;
  g <- randrange 255 ;;
  b <- randrange 255 ;;
  ret (format_color r g b).

(** Source lines 125-128: [n] more rounds of the loop that appends one
    colour to [random_colors]. *)
Fixpoint generate_colors (n : nat) (random_colors : list pystr)
  : M (list pystr) :=
  match n with
  | O => ret random_colors
  | S n' =>
      c <- random_color ;;
      generate_colors n' (random_colors ++ [c])
  end.

(** Source line 133. *)
Definition cellvals_of (cellstats : pystr) : list pystr :=
  map (split_head PIPE) (splitlines cellstats).

(** Source lines 143-146. *)
Definition colors_str_of (cellvals random_colors : list pystr) : list pystr :=
  map (fun vc : pystr * pystr => fst vc ++ lit " " ++ snd vc)
      (combine cellvals (firstn (length cellvals) random_colors)).

(** Source lines 158-161. *)
Definition category_text_of (cellstats : pystr) : pystr :=
  fold_left
    (fun category_text line =>
       let val := split_head PIPE line in
       category_text ++ (val ++ lit "|" ++ val ++ [NEWLINE]))
    (splitlines cellstats) [].

Definition r_stats_args (map : pystr) : kwargs :=
  [(lit "input", PStr map); (lit "separator", PStr (lit "pipe"));
   (lit "flags", PStr (lit "cn"))].

(** Source lines 105-112. *)
Definition AttributeColorStrategy (o : options) : M unit :=
  message (using_colors_message (color_column o)) ;;;
  run_command (lit "v.colors.to.rast")
    [(lit "referencemap", PStr (referencemap o));
     (lit "map", PStr (map_ o));
     (lit "color_column", PStr (color_column o));
     (lit "class_column", PStr (class_column o))].

(** Source lines 114-115. *)
Definition FuzzyMatchStrategy (map : pystr) : M unit :=
  message (gettext (lit "Matching land cover classes...")) ;;;
  run_command (lit "r.colors.fuzzy_lc") [(lit "map", PStr map)].

(** Source lines 123-169. *)
Definition RandomColorStrategy (map : pystr) : M unit :=
  random_colors <- generate_colors colors_to_generate [] ;;
  cellstats <- read_command (lit "r.stats") (r_stats_args map) ;;
  let cellvals := cellvals_of cellstats in
  (if length random_colors <? length cellvals
   then
     run_command (lit "r.colors")
       [(lit "map", PStr map); (lit "color", PStr (lit "random"))] ;;;
     warning (more_cells_warning (length random_colors))
   else ret tt) ;;;
  let colors_str := colors_str_of cellvals random_colors in
  bc <- feed_command (lit "r.colors")
          [(lit "quiet", PBool true); (lit "map", PStr map);
           (lit "rules", PStr (lit "-"))] ;;
  stdin_write bc (encode (join [NEWLINE] colors_str)) ;;;
  stdin_close bc ;;;
  wait bc ;;;
  mapinfo <- raster_info map ;;
  datatype <- subscript mapinfo (lit "datatype") ;;
  if pyval_eq_str datatype (lit "CELL")
  then
    cellstats <- read_command (lit "r.stats") (r_stats_args map) ;;
    let category_text := category_text_of cellstats in
    cat_proc <- feed_command (lit "r.category")
                  [(lit "map", PStr map); (lit "rules", PStr (lit "-"));
                   (lit "separator", PStr (lit "pipe"))] ;;
    stdin_write cat_proc (encode category_text) ;;;
    stdin_close cat_proc ;;;
    wait cat_proc
  else ret tt.

(** Source lines 70-169. *)
Definition main (o : options) : M unit :=
  let referencemap := referencemap o in
  let map := map_ o in
  let color_column := color_column o in
  let class_column := class_column o in
  found <- find_program (lit "v.colors.to.rast") [lit "--help"] ;;
  (if negb found then fatal v_colors_to_rast_missing else ret tt) ;;;
  found <- find_program (lit "r.colors.fuzzy_lc") [lit "--help"] ;;
  (if negb found then fatal r_colors_fuzzy_lc_missing else ret tt) ;;;
  listing <- parse_command (lit "r.category")
               [(lit "map", PStr map); (lit "separator", PStr (lit "tab"))] ;;
  let map_class_labels := keys listing in
  if truthy color_column
  then AttributeColorStrategy o
  else if has_cat_label map_class_labels
  then FuzzyMatchStrategy map
  else
    warning missing_labels_warning ;;;
    RandomColorStrategy map.

(** The log and the outcome of a whole run. *)
Definition run (w : world) (o : options) : outcome unit * state :=
  main o w init.

(** ** The answers of the world along a run *)

Definition v_colors_to_rast_found (w : world) : bool :=
  find_program_ans w [] (lit "v.colors.to.rast") [lit "--help"].

Definition first_probe (w : world) : event :=
  EFindProgram (lit "v.colors.to.rast") [lit "--help"]
    (v_colors_to_rast_found w).

Definition r_colors_fuzzy_lc_found (w : world) : bool :=
  find_program_ans w [first_probe w] (lit "r.colors.fuzzy_lc") [lit "--help"].

Definition second_probe (w : world) : event :=
  EFindProgram (lit "r.colors.fuzzy_lc") [lit "--help"]
    (r_colors_fuzzy_lc_found w).

Definition r_category_args (o : options) : kwargs :=
  [(lit "map", PStr (map_ o)); (lit "separator", PStr (lit "tab"))].

(** The category listing of the map, as the run gets it. *)
Definition category_listing (w : world) (o : options) : dict :=
  parse_command_ans w [first_probe w; second_probe w]
    (lit "r.category") (r_category_args o).

(** The log of a run that found both modules, when it selects. *)
Definition gate_events (w : world) (o : options) : list event :=
  [first_probe w; second_probe w;
   EParseCommand (lit "r.category") (r_category_args o) (category_listing w o)].

Definition attribute_events (o : options) : list event :=
  [EMessage (using_colors_message (color_column o));
   ERunCommand (lit "v.colors.to.rast")
     [(lit "referencemap", PStr (referencemap o));
      (lit "map", PStr (map_ o));
      (lit "color_column", PStr (color_column o));
      (lit "class_column", PStr (class_column o))]].

Definition fuzzy_events (o : options) : list event :=
  [EMessage (gettext (lit "Matching land cover classes..."));
   ERunCommand (lit "r.colors.fuzzy_lc") [(lit "map", PStr (map_ o))]].

(** The state in which the random strategy starts. *)
Definition random_start (w : world) (o : options) : state :=
  {| trace := gate_events w o ++ [EWarning missing_labels_warning];
     draws := 0 |}.

(** The three channels the [k]-th colour of a run is made of, when the run
    had made [d] draws before the pool. *)
Definition channels (w : world) (d k : nat) : Z * Z * Z :=
  ((entropy w (d + 3 * k) mod 255)%Z,
   (entropy w (d + 3 * k + 1) mod 255)%Z,
   (entropy w (d + 3 * k + 2) mod 255)%Z).

Definition color_of (c : Z * Z * Z) : pystr :=
  let '(r, g, b) := c in format_color r g b.

(** The colours [k], [k+1], ..., [k+n-1] of such a run. *)
Fixpoint pool_from (w : world) (d k n : nat) : list (Z * Z * Z) :=
  match n with
  | O => []
  | S n' => channels w d k :: pool_from w d (S k) n'
  end.

(** The pool of a run of the random strategy that starts in [st]. *)
Definition pool (w : world) (st : state) : list pystr :=
  map color_of (pool_from w (draws st) 0 colors_to_generate).

(** What the statistics answer to the first query of such a run. *)
Definition first_cellstats (w : world) (map : pystr) (st : state) : pystr :=
  read_command_ans w (trace st) (lit "r.stats") (r_stats_args map).

Definition random_fallback (map : pystr) (n : nat) : list event :=
  [ERunCommand (lit "r.colors")
     [(lit "map", PStr map); (lit "color", PStr (lit "random"))];
   EWarning (more_cells_warning n)].

Definition color_table_write (map : pystr) (bc : process) (data : pystr)
  : list event :=
  [EFeedCommand (lit "r.colors")
     [(lit "quiet", PBool true); (lit "map", PStr map);
      (lit "rules", PStr (lit "-"))] bc;
   EStdinWrite bc data; EStdinClose bc; EWait bc].

Definition label_write (map : pystr) (cat_proc : process) (data : pystr)
  : list event :=
  [EFeedCommand (lit "r.category")
     [(lit "map", PStr map); (lit "rules", PStr (lit "-"));
      (lit "separator", PStr (lit "pipe"))] cat_proc;
   EStdinWrite cat_proc data; EStdinClose cat_proc; EWait cat_proc].

(** The events of source lines 130-150, for a run that starts in [st]. *)
Definition color_table_events (w : world) (map : pystr) (st : state)
  : list event :=
  let random_colors := pool w st in
  let cellstats := first_cellstats w map st in
  let cellvals := cellvals_of cellstats in
  let fallback :=
    if length random_colors <? length cellvals
    then random_fallback map (length random_colors) else [] in
  let query := EReadCommand (lit "r.stats") (r_stats_args map) cellstats in
  query :: fallback
  ++ color_table_write map (length (trace st ++ query :: fallback))
       (join [NEWLINE] (colors_str_of cellvals random_colors)).

(** The events of source lines 155-169, when the log is [tr] before them. *)
Definition label_events (w : world) (map : pystr) (tr : list event)
  : list event :=
  let cellstats := read_command_ans w tr (lit "r.stats") (r_stats_args map) in
  let query := EReadCommand (lit "r.stats") (r_stats_args map) cellstats in
  query :: label_write map (length (tr ++ [query])) (category_text_of cellstats).

(** The log of the random strategy when it asks for the datatype, that
    answer, and the log when it asks for the statistics again. *)
Definition log_before_info (w : world) (map : pystr) (st : state)
  : list event :=
  trace st ++ color_table_events w map st.

Definition mapinfo_of (w : world) (map : pystr) (st : state) : dict :=
  raster_info_ans w (log_before_info w map st) map.

Definition log_after_info (w : world) (map : pystr) (st : state)
  : list event :=
  log_before_info w map st ++ [ERasterInfo map (mapinfo_of w map st)].

(** A raster of type CELL, by the answer of [r.info]. *)
Definition datatype_is_CELL (mapinfo : dict) : bool :=
  match getitem mapinfo (lit "datatype") with
  | Some datatype => pyval_eq_str datatype (lit "CELL")
  | None => false
  end.

(** ** Properties of a log *)

(** The events a computation adds to the log. *)
Definition events_of {A} (c : M A) (w : world) (st : state) : list event :=
  skipn (length (trace st)) (trace (snd (c w st))).

(** The rule lines a payload is made of. *)
Definition rule_lines (data : pystr) : list pystr := splitlines data.

Definition in_channel_range (c : Z * Z * Z) : Prop :=
  let '(r, g, b) := c in
  (0 <= r <= 254 /\ 0 <= g <= 254 /\ 0 <= b <= 254)%Z.

Definition is_probe (e : event) : Prop :=
  match e with
  | EFindProgram _ _ _ => True
  | _ => False
  end.

(** An event by which the script hands the map over to the module [prog]. *)
Definition delegates_to (prog : pystr) (e : event) : bool :=
  match e with
  | ERunCommand p _ => pystr_eqb p prog
  | _ => false
  end.

Definition attribute_ran (tr : list event) : bool :=
  existsb (delegates_to (lit "v.colors.to.rast")) tr.

Definition fuzzy_ran (tr : list event) : bool :=
  existsb (delegates_to (lit "r.colors.fuzzy_lc")) tr.

Definition is_stats_query (e : event) : bool :=
  match e with
  | EReadCommand p _ _ => pystr_eqb p (lit "r.stats")
  | _ => false
  end.

(** The random strategy is the only one to ask for the statistics. *)
Definition random_ran (tr : list event) : bool := existsb is_stats_query tr.

(** An event that starts the label writer. *)
Definition starts_label_writer (e : event) : bool :=
  match e with
  | EFeedCommand p _ _ => pystr_eqb p (lit "r.category")
  | _ => false
  end.

Definition label_written (evs : list event) : bool :=
  existsb starts_label_writer evs.

(** The log keeps the discipline of the pipes: a process that is started is
    at once written to, then its input is closed, then it is waited for,
    and nothing else touches a pipe. *)
Fixpoint streams_in_order (tr : list event) : bool :=
  match tr with
  | [] => true
  | EFeedCommand _ _ p :: tr1 =>
      match tr1 with
      | EStdinWrite p1 _ :: EStdinClose p2 :: EWait p3 :: tr2 =>
          (Nat.eqb p p1 && Nat.eqb p p2 && Nat.eqb p p3
           && streams_in_order tr2)%bool
      | _ => false
      end
  | EStdinWrite _ _ :: _ => false
  | EStdinClose _ :: _ => false
  | EWait _ :: _ => false
  | _ :: tr1 => streams_in_order tr1
  end.

Definition boundary_free (s : pystr) : Prop :=
  Forall (fun c => is_line_boundary c = false) s.

Definition boundary_freeb (s : pystr) : bool :=
  forallb (fun c => negb (is_line_boundary c)) s.

(** ** Sample worlds *)

Definition is_raster_info (e : event) : bool :=
  match e with
  | ERasterInfo _ _ => true
  | _ => false
  end.

(** A world in which the two modules are found or not, the map has the
    given category listing and datatype, and the statistics answer [stats1]
    until the datatype has been asked for, and [stats2] after that. *)
Definition sample_world (found1 found2 : bool) (listing : dict)
    (stats1 stats2 : pystr) (datatype : pystr) : world :=
  {| find_program_ans := fun _ pgm _ =>
       if pystr_eqb pgm (lit "v.colors.to.rast") then found1 else found2;
     parse_command_ans := fun _ _ _ => listing;
     read_command_ans := fun tr _ _ =>
       if existsb is_raster_info tr then stats2 else stats1;
     raster_info_ans := fun _ _ => [(lit "datatype", PStr datatype)];
     entropy := fun k => Z.of_nat (97 * k + 13) |}.

Definition only_map (map : pystr) : options :=
  {| referencemap := []; map_ := map; color_column := []; class_column := [] |}.

(** Categories 1, 2 and 3, of which only the first two carry a label. *)
Definition partly_labelled : dict :=
  [(lit "1" ++ [TAB] ++ lit "grass", PNone);
   (lit "2" ++ [TAB] ++ lit "forest", PNone);
   (lit "3", PNone)].

Definition fully_labelled : dict :=
  [(lit "1" ++ [TAB] ++ lit "grass", PNone);
   (lit "2" ++ [TAB] ++ lit "forest", PNone);
   (lit "3" ++ [TAB] ++ lit "water", PNone)].

(** [first, first+1, ..., first+n-1], one value and its cell count a line,
    as [r.stats -cn] prints them. *)
Fixpoint stats_lines (first : Z) (n : nat) : pystr :=
  match n with
  | O => []
  | S n' => str_of_Z first ++ lit "|7" ++ [NEWLINE]
            ++ stats_lines (first + 1) n'
  end.

Definition empty_listing_world : world :=
  sample_world true true [] (stats_lines 10 5) (stats_lines 10 5) (lit "CELL").

(** Scenario B of the specification: all three options of the reference
    map are given. *)
Definition scenario_B_options : options :=
  {| referencemap := lit "refmap"; map_ := lit "landcover";
     color_column := lit "col"; class_column := lit "cls" |}.

Definition scenario_B_world : world :=
  sample_world true true fully_labelled (stats_lines 1 3) (stats_lines 1 3)
    (lit "CELL").

(** Scenario C of the specification: an integer raster without labels on
    all categories, with the values 10 to 14. *)
Definition scenario_C_world : world :=
  sample_world true true partly_labelled (stats_lines 10 5) (stats_lines 10 5)
    (lit "CELL").

Definition scenario_C_start : state :=
  random_start scenario_C_world (only_map (lit "landcover")).

(** An integer raster with the 41 values 1 to 41. *)
Definition scenario_41_world : world :=
  sample_world true true partly_labelled (stats_lines 1 41) (stats_lines 1 41)
    (lit "CELL").

Definition scenario_41_start : state :=
  random_start scenario_41_world (only_map (lit "landcover")).

(** A raster in which every cell is missing: the statistics list nothing. *)
Definition scenario_empty_world : world :=
  sample_world true true partly_labelled [] [] (lit "CELL").

Definition scenario_empty_start : state :=
  random_start scenario_empty_world (only_map (lit "landcover")).

(** An integer raster of which the statistics list the values 10 to 14 at
    first and the values 20 to 22 after the datatype has been asked for. *)
Definition scenario_requery_world : world :=
  sample_world true true partly_labelled (stats_lines 10 5) (stats_lines 20 3)
    (lit "CELL").

Definition scenario_requery_start : state :=
  random_start scenario_requery_world (only_map (lit "landcover")).

(** ** Further readings of a log *)

(** An event that starts a process with a pipe to its input. *)
Definition is_feed (e : event) : bool :=
  match e with
  | EFeedCommand _ _ _ => true
  | _ => false
  end.

Definition is_warning (e : event) : bool :=
  match e with
  | EWarning _ => true
  | _ => false
  end.

(** An event that runs [r.colors] by [grass.run_command]: the script does
    so for the random assignment only. *)
Definition random_assignment_ran (evs : list event) : bool :=
  existsb (delegates_to (lit "r.colors")) evs.

(** The raster a module is run on: its [map] argument, or else its [input]
    argument. *)
Definition map_argument (kw : kwargs) : option pyval :=
  match getitem kw (lit "map") with
  | Some v => Some v
  | None => getitem kw (lit "input")
  end.

(** The event is no call of a module, or a call on the raster [map]. *)
Definition addresses (map : pystr) (e : event) : Prop :=
  match e with
  | EParseCommand _ kw _ => map_argument kw = Some (PStr map)
  | ERunCommand _ kw => map_argument kw = Some (PStr map)
  | EReadCommand _ kw _ => map_argument kw = Some (PStr map)
  | EFeedCommand _ kw _ => map_argument kw = Some (PStr map)
  | ERasterInfo m _ => m = map
  | _ => True
  end.

(** What [r.stats -cn] with the pipe as separator prints for the given
    values and cell counts: a line [value|count] for each. *)
Definition stats_output (rows : list (pystr * pystr)) : pystr :=
  concat (map (fun row : pystr * pystr =>
                 fst row ++ [PIPE] ++ snd row ++ [NEWLINE]) rows).

(** A value of the statistics as the script expects it: no pipe and no
    line break in it. *)
Definition clean_value (v : pystr) : Prop := ~ In PIPE v /\ boundary_free v.

(** The world of scenario C, but for a raster of which [r.info] gives no
    datatype. *)
Definition scenario_no_datatype_world : world :=
  {| find_program_ans := find_program_ans scenario_C_world;
     parse_command_ans := parse_command_ans scenario_C_world;
     read_command_ans := read_command_ans scenario_C_world;
     raster_info_ans := fun _ _ => [];
     entropy := entropy scenario_C_world |}.

(** * Proofs *)

(** ** The text functions on samples *)

Example splitlines_ex1 :
  splitlines (lit "10|5
11|7
") = [lit "10|5"; lit "11|7"].
Proof. reflexivity. Qed.

Example splitlines_ex2 :
  splitlines [] = []
  /\ splitlines [NEWLINE] = [[]]
  /\ splitlines (lit "a" ++ [CR; NEWLINE] ++ lit "b" ++ [CR]) = [lit "a"; lit "b"]
  /\ splitlines (lit "a" ++ [NEWLINE; NEWLINE] ++ lit "b") = [lit "a"; []; lit "b"].
Proof. repeat split. Qed.

Example split_head_ex :
  split_head PIPE (lit "10|5") = lit "10"
  /\ split_head PIPE (lit "10") = lit "10"
  /\ split_head PIPE [] = [].
Proof. repeat split. Qed.

Example str_of_Z_ex : str_of_Z 0 = lit "0" /\ str_of_Z 254 = lit "254".
Proof. split; reflexivity. Qed.

(** ** The pure parts of the script *)

Lemma fold_has_cat_label (labels : list pystr) (flag : bool) :
  fold_left
    (fun flag label => if negb (contains_char TAB label) then false else flag)
    labels flag
  = (flag && forallb (contains_char TAB) labels)%bool.
Proof.
  revert flag.
  induction labels as [|l ls IH]; intros flag; simpl.
  - now rewrite andb_true_r.
  - rewrite IH. destruct (contains_char TAB l); simpl.
    + reflexivity.
    + now rewrite andb_false_r.
Qed.

Lemma has_cat_label_forallb (labels : list pystr) :
  has_cat_label labels = forallb (contains_char TAB) labels.
Proof. unfold has_cat_label. now rewrite fold_has_cat_label. Qed.

Lemma contains_char_In (c : N) (s : pystr) :
  contains_char c s = true <-> In c s.
Proof.
  unfold contains_char. rewrite existsb_exists. split.
  - intros [x [Hin Heq]]. apply N.eqb_eq in Heq. now subst.
  - intros Hin. exists c. split; [assumption | apply N.eqb_refl].
Qed.

Lemma length_colors_str_of (cellvals random_colors : list pystr) :
  length (colors_str_of cellvals random_colors)
  = Nat.min (length cellvals) (length random_colors).
Proof.
  unfold colors_str_of.
  rewrite length_map, length_combine, length_firstn. lia.
Qed.

Lemma nth_error_colors_str_of (cellvals random_colors : list pystr) (i : nat)
      (val color : pystr) :
  nth_error cellvals i = Some val ->
  nth_error random_colors i = Some color ->
  nth_error (colors_str_of cellvals random_colors) i
  = Some (val ++ lit " " ++ color).
Proof.
  unfold colors_str_of. intros Hv Hc.
  assert (Hi : i < length cellvals)
    by (apply nth_error_Some; congruence).
  rewrite nth_error_map.
  assert (Hcomb : nth_error
            (combine cellvals (firstn (length cellvals) random_colors)) i
          = Some (val, color)).
  { revert Hv Hc Hi. generalize (length cellvals) as n.
    revert random_colors i.
    induction cellvals as [|v vs IH]; intros cs i n Hv Hc Hi.
    - destruct i; discriminate.
    - destruct n as [|n]; [lia|].
      destruct cs as [|c cs]; [destruct i; discriminate|].
      destruct i as [|i]; simpl in *.
      + congruence.
      + apply IH; [assumption | assumption | lia]. }
  now rewrite Hcomb.
Qed.

Lemma fold_category_text (lines : list pystr) (acc : pystr) :
  fold_left
    (fun category_text line =>
       let val := split_head PIPE line in
       category_text ++ (val ++ lit "|" ++ val ++ [NEWLINE]))
    lines acc
  = acc ++ concat (map (fun line =>
                          let val := split_head PIPE line in
                          val ++ lit "|" ++ val ++ [NEWLINE]) lines).
Proof.
  revert acc.
  induction lines as [|l ls IH]; intros acc; simpl.
  - now rewrite app_nil_r.
  - rewrite IH. now rewrite <- app_assoc.
Qed.

(** The label text is one line [val|val], ended by a newline, for each value
    of the statistics. *)
Lemma category_text_of_lines (cellstats : pystr) :
  category_text_of cellstats
  = concat (map (fun val => val ++ lit "|" ++ val ++ [NEWLINE])
                (cellvals_of cellstats)).
Proof.
  unfold category_text_of, cellvals_of.
  rewrite fold_category_text. simpl. now rewrite map_map.
Qed.

Lemma In_firstn {A} (n : nat) (l : list A) (x : A) :
  In x (firstn n l) -> In x l.
Proof.
  intros H. rewrite <- (firstn_skipn n l). apply in_or_app. now left.
Qed.

(** ** The lines of a payload *)

Lemma not_boundary_not_newline (c : N) :
  is_line_boundary c = false -> N.eqb c NEWLINE = false.
Proof.
  unfold is_line_boundary, NEWLINE. intros H.
  destruct (N.eqb c 10); [discriminate H | reflexivity].
Qed.

Lemma splitlines_from_line (l : pystr) :
  boundary_free l -> l <> [] ->
  forall (after_cr : bool) (cur rest : pystr),
    splitlines_from after_cr cur (l ++ rest)
    = splitlines_from false (rev l ++ cur) rest.
Proof.
  induction l as [|c l IH]; intros Hfree Hne after_cr cur rest;
    [contradiction|].
  inversion Hfree as [|c' l' Hc Hl]; subst.
  cbn [app splitlines_from].
  rewrite (not_boundary_not_newline c Hc), Hc. cbn [andb].
  destruct l as [|c2 l].
  - reflexivity.
  - rewrite IH by (assumption || discriminate).
    cbn [rev]. now rewrite <- !app_assoc.
Qed.

(** Lines without line breaks, none of them empty, are got back from their
    join. *)
Lemma splitlines_join (lines : list pystr) :
  Forall (fun l => boundary_free l /\ l <> []) lines ->
  splitlines (join [NEWLINE] lines) = lines.
Proof.
  unfold splitlines.
  induction lines as [|p ps IH]; intros H; [reflexivity|].
  inversion H as [|p' ps' [Hfree Hne] Hps]; subst.
  destruct ps as [|q ps].
  - cbn [join]. rewrite <- (app_nil_r p) at 1.
    rewrite splitlines_from_line by assumption.
    rewrite app_nil_r. cbn [splitlines_from].
    destruct (rev p) eqn:E.
    + apply (f_equal (@rev N)) in E. rewrite rev_involutive in E.
      cbn in E. contradiction.
    + rewrite <- E, rev_involutive. reflexivity.
  - change (join [NEWLINE] (p :: q :: ps))
      with (p ++ [NEWLINE] ++ join [NEWLINE] (q :: ps)).
    rewrite splitlines_from_line by assumption.
    rewrite app_nil_r. cbn [app splitlines_from].
    change (N.eqb NEWLINE NEWLINE && false)%bool with false.
    change (is_line_boundary NEWLINE) with true.
    change (N.eqb NEWLINE CR) with false.
    cbv iota. rewrite rev_involutive. f_equal. apply IH. assumption.
Qed.

Lemma splitlines_from_boundary_free (s : pystr) :
  forall (after_cr : bool) (cur : pystr),
    boundary_free cur ->
    Forall boundary_free (splitlines_from after_cr cur s).
Proof.
  induction s as [|c s IH]; intros after_cr cur Hcur; cbn [splitlines_from].
  - destruct cur as [|c0 cur]; constructor; [|constructor].
    apply Forall_rev. assumption.
  - destruct (N.eqb c NEWLINE && after_cr)%bool.
    + apply IH. assumption.
    + destruct (is_line_boundary c) eqn:Hc.
      * constructor; [apply Forall_rev; assumption|].
        apply IH. constructor.
      * apply IH. constructor; assumption.
Qed.

Lemma splitlines_boundary_free (s : pystr) :
  Forall boundary_free (splitlines s).
Proof. apply splitlines_from_boundary_free. constructor. Qed.

Lemma split_head_boundary_free (sep : N) (s : pystr) :
  boundary_free s -> boundary_free (split_head sep s).
Proof.
  induction s as [|c s IH]; intros H; cbn [split_head]; [constructor|].
  inversion H; subst.
  destruct (N.eqb c sep); constructor; [assumption | now apply IH].
Qed.

Lemma cellvals_boundary_free (cellstats : pystr) :
  Forall boundary_free (cellvals_of cellstats).
Proof.
  unfold cellvals_of. apply Forall_map.
  eapply Forall_impl; [|apply splitlines_boundary_free].
  intros l Hl. now apply split_head_boundary_free.
Qed.

Lemma boundary_freeb_spec (s : pystr) :
  boundary_freeb s = true -> boundary_free s.
Proof.
  unfold boundary_freeb, boundary_free.
  rewrite forallb_forall, Forall_forall. intros H c Hc.
  apply H in Hc. now destruct (is_line_boundary c).
Qed.

Lemma channel_text_boundary_free (z : Z) :
  (0 <= z <= 254)%Z -> boundary_free (str_of_Z z).
Proof.
  intros Hz. apply boundary_freeb_spec.
  assert (Hall : forallb (fun n => boundary_freeb (str_of_Z (Z.of_nat n)))
                         (seq 0 255) = true) by (vm_compute; reflexivity).
  rewrite forallb_forall in Hall.
  specialize (Hall (Z.to_nat z)).
  rewrite Z2Nat.id in Hall by lia.
  apply Hall. apply in_seq. lia.
Qed.

Lemma color_boundary_free (c : Z * Z * Z) :
  in_channel_range c -> boundary_free (color_of c).
Proof.
  destruct c as [[r g] b]. intros [Hr [Hg Hb]].
  unfold color_of, format_color, boundary_free.
  repeat (apply Forall_app; split);
    try (apply channel_text_boundary_free; assumption);
    apply boundary_freeb_spec; reflexivity.
Qed.

(** ** The runs of the script *)

Lemma mod_255_range (z : Z) : (0 <= z mod 255 <= 254)%Z.
Proof. pose proof (Z.mod_pos_bound z 255). lia. Qed.

Lemma pool_from_length (w : world) (d k n : nat) :
  length (pool_from w d k n) = n.
Proof. revert k. induction n; intros k; simpl; [reflexivity | now rewrite IHn]. Qed.

Lemma pool_from_range (w : world) (d k n : nat) :
  Forall in_channel_range (pool_from w d k n).
Proof.
  revert k. induction n; intros k; simpl; constructor.
  - unfold channels, in_channel_range. repeat split; apply mod_255_range.
  - apply IHn.
Qed.

Lemma pool_from_nth (w : world) (d k n i : nat) :
  i < n -> nth_error (pool_from w d k n) i = Some (channels w d (k + i)).
Proof.
  revert k i. induction n; intros k i Hi; [lia|].
  destruct i; simpl.
  - now rewrite Nat.add_0_r.
  - rewrite IHn by lia. f_equal. f_equal. lia.
Qed.

Lemma skipn_length_app {A} (l1 l2 : list A) : skipn (length l1) (l1 ++ l2) = l2.
Proof. induction l1; simpl; [reflexivity | assumption]. Qed.

Lemma random_color_run (w : world) (st : state) (d k : nat) :
  draws st = d + 3 * k ->
  random_color w st
  = (Ok (color_of (channels w d k)),
     {| trace := trace st; draws := d + 3 * S k |}).
Proof.
  intros Hd. unfold random_color, bind, randrange, ret. simpl.
  unfold channels, color_of. rewrite Hd.
  replace (S (d + 3 * k)) with (d + 3 * k + 1) by lia.
  replace (S (d + 3 * k + 1)) with (d + 3 * k + 2) by lia.
  replace (S (d + 3 * k + 2)) with (d + 3 * S k) by lia.
  reflexivity.
Qed.

Lemma generate_colors_from (w : world) (n : nat) :
  forall (acc : list pystr) (st : state) (d k : nat),
    draws st = d + 3 * k ->
    generate_colors n acc w st
    = (Ok (acc ++ map color_of (pool_from w d k n)),
       {| trace := trace st; draws := d + 3 * (k + n) |}).
Proof.
  induction n as [|n IH]; intros acc st d k Hd;
    cbn [generate_colors pool_from map].
  - unfold ret. rewrite app_nil_r. destruct st as [tr dr]. simpl in *.
    do 2 f_equal. lia.
  - unfold bind. rewrite (@random_color_run w st d k Hd).
    rewrite (IH _ _ d (S k)) by reflexivity.
    rewrite <- app_assoc. cbn [trace app]. do 2 f_equal. lia.
Qed.

Lemma generate_colors_run (w : world) (st : state) :
  generate_colors colors_to_generate [] w st
  = (Ok (map color_of (pool_from w (draws st) 0 colors_to_generate)),
     {| trace := trace st; draws := draws st + 120 |}).
Proof.
  rewrite (@generate_colors_from w colors_to_generate [] st (draws st) 0)
    by lia.
  reflexivity.
Qed.

Lemma length_snoc {A} (l : list A) (a : A) : length (l ++ [a]) = S (length l).
Proof. rewrite length_app. simpl. lia. Qed.

Lemma RandomColorStrategy_run (w : world) (map : pystr) (st : state) :
  let tr3 := trace st ++ color_table_events w map st in
  let mapinfo := raster_info_ans w tr3 map in
  let tr4 := tr3 ++ [ERasterInfo map mapinfo] in
  RandomColorStrategy map w st
  = match getitem mapinfo (lit "datatype") with
    | None =>
        (Raised (lit "KeyError"), {| trace := tr4; draws := draws st + 120 |})
    | Some datatype =>
        (Ok tt,
         {| trace := if pyval_eq_str datatype (lit "CELL")
                     then tr4 ++ label_events w map tr4 else tr4;
            draws := draws st + 120 |})
    end.
Proof.
  unfold RandomColorStrategy, color_table_events, label_events,
    color_table_write, label_write, random_fallback.
  unfold bind at 1. rewrite generate_colors_run.
  fold (pool w st). unfold first_cellstats.
  unfold bind, read_command, run_command, warning, feed_command, stdin_write,
    stdin_close, wait, raster_info, subscript, ret, raise, log, encode.
  cbn [trace draws].
  set (cellstats := read_command_ans w (trace st) (lit "r.stats") (r_stats_args map)).
  destruct (length (pool w st) <? length (cellvals_of cellstats));
    cbn [trace draws app];
    repeat rewrite <- app_assoc; cbn [app];
    match goal with
    | |- context [getitem ?d ?k] => destruct (getitem d k) as [dt|]
    end;
    try reflexivity;
    destruct (pyval_eq_str dt (lit "CELL"));
    cbn [trace draws app]; repeat rewrite <- app_assoc; cbn [app];
    reflexivity.
Qed.

Lemma main_run (w : world) (o : options) :
  run w o
  = if negb (v_colors_to_rast_found w)
    then (Fatal v_colors_to_rast_missing,
          {| trace := [first_probe w; EFatal v_colors_to_rast_missing];
             draws := 0 |})
    else if negb (r_colors_fuzzy_lc_found w)
    then (Fatal r_colors_fuzzy_lc_missing,
          {| trace := [first_probe w; second_probe w;
                       EFatal r_colors_fuzzy_lc_missing];
             draws := 0 |})
    else if truthy (color_column o)
    then (Ok tt, {| trace := gate_events w o ++ attribute_events o;
                    draws := 0 |})
    else if has_cat_label (keys (category_listing w o))
    then (Ok tt, {| trace := gate_events w o ++ fuzzy_events o; draws := 0 |})
    else RandomColorStrategy (map_ o) w (random_start w o).
Proof.
  unfold run, main, random_start, gate_events, category_listing,
    r_category_args, second_probe, r_colors_fuzzy_lc_found, first_probe,
    v_colors_to_rast_found, AttributeColorStrategy, FuzzyMatchStrategy,
    attribute_events, fuzzy_events.
  unfold bind, find_program, parse_command, fatal, ret, warning, message,
    run_command, log, init.
  cbn [trace draws app].
  repeat match goal with
         | |- context [if negb ?b then _ else _] =>
             destruct b; cbn [negb trace draws app]
         | |- context [if ?b then _ else _] =>
             destruct b; cbn [trace draws app]
         end;
    reflexivity.
Qed.

(** The cases of a run of the random strategy: the datatype is missing, is
    CELL or is not, and the values are more than the pool or not. *)
Ltac random_cases :=
  rewrite RandomColorStrategy_run; cbv zeta;
  unfold color_table_events, label_events; cbv zeta;
  match goal with
  | |- context [getitem ?d (lit "datatype")] =>
      let dt := fresh "dt" in
      destruct (getitem d (lit "datatype")) as [dt|];
      [destruct (pyval_eq_str dt (lit "CELL"))|]
  end;
  cbn [snd trace];
  match goal with
  | |- context [?a <? ?b] => destruct (a <? b)
  end.

(** The random strategy starts no module but [r.colors]. *)
Lemma RandomColorStrategy_delegates (w : world) (o : options) (prog : pystr) :
  pystr_eqb (lit "r.colors") prog = false ->
  existsb (delegates_to prog)
    (trace (snd (RandomColorStrategy (map_ o) w (random_start w o))))
  = false.
Proof.
  intros Hprog. random_cases;
    cbn [random_start trace gate_events first_probe second_probe app existsb
         delegates_to color_table_write label_write random_fallback orb];
    rewrite ?Hprog; reflexivity.
Qed.

Lemma RandomColorStrategy_queries (w : world) (o : options) :
  random_ran (trace (snd (RandomColorStrategy (map_ o) w (random_start w o))))
  = true.
Proof.
  unfold random_ran. random_cases; reflexivity.
Qed.

Lemma datatype_is_CELL_iff (mapinfo : dict) :
  datatype_is_CELL mapinfo = true
  <-> getitem mapinfo (lit "datatype") = Some (PStr (lit "CELL")).
Proof.
  unfold datatype_is_CELL, pyval_eq_str, pystr_eqb.
  destruct (getitem mapinfo (lit "datatype")) as [[s| | |]|];
    try (split; intros H; discriminate H).
  destruct (pystr_eq_dec s (lit "CELL")) as [E|E].
  - subst. split; reflexivity.
  - split; intros H; [discriminate H|]. inversion H. contradiction.
Qed.

Lemma RandomColorStrategy_events (w : world) (map : pystr) (st : state) :
  events_of (RandomColorStrategy map) w st
  = color_table_events w map st
    ++ ERasterInfo map (mapinfo_of w map st)
    :: (if datatype_is_CELL (mapinfo_of w map st)
        then label_events w map (log_after_info w map st) else []).
Proof.
  unfold events_of. rewrite RandomColorStrategy_run. cbv zeta.
  fold (log_before_info w map st). fold (mapinfo_of w map st).
  fold (log_after_info w map st).
  unfold datatype_is_CELL.
  destruct (getitem (mapinfo_of w map st) (lit "datatype")) as [dt|];
    [destruct (pyval_eq_str dt (lit "CELL"))|];
    cbn [snd trace]; unfold log_after_info, log_before_info;
    repeat rewrite <- app_assoc; rewrite skipn_length_app;
    cbn [app]; try rewrite app_nil_r; reflexivity.
Qed.

Lemma RandomColorStrategy_outcome (w : world) (map : pystr) (st : state) :
  fst (RandomColorStrategy map w st)
  = match getitem (mapinfo_of w map st) (lit "datatype") with
    | Some _ => Ok tt
    | None => Raised (lit "KeyError")
    end.
Proof.
  rewrite RandomColorStrategy_run. cbv zeta.
  fold (log_before_info w map st). fold (mapinfo_of w map st).
  destruct (getitem (mapinfo_of w map st) (lit "datatype")); reflexivity.
Qed.

Lemma pool_length (w : world) (st : state) : length (pool w st) = 40.
Proof. unfold pool. now rewrite length_map, pool_from_length. Qed.

Lemma pool_boundary_free (w : world) (st : state) :
  Forall boundary_free (pool w st).
Proof.
  unfold pool. apply Forall_map.
  eapply Forall_impl; [|apply pool_from_range].
  intros c Hc. now apply color_boundary_free.
Qed.

Lemma color_table_events_within (w : world) (map : pystr) (st : state) :
  length (cellvals_of (first_cellstats w map st)) <= 40 ->
  color_table_events w map st
  = EReadCommand (lit "r.stats") (r_stats_args map) (first_cellstats w map st)
    :: color_table_write map (S (length (trace st)))
         (join [NEWLINE]
            (colors_str_of (cellvals_of (first_cellstats w map st))
               (pool w st))).
Proof.
  intros HN. unfold color_table_events. cbv zeta.
  rewrite pool_length.
  replace (40 <? length (cellvals_of (first_cellstats w map st))) with false
    by (symmetry; apply Nat.ltb_ge; assumption).
  cbn [app]. now rewrite length_snoc.
Qed.

Lemma color_table_events_beyond (w : world) (map : pystr) (st : state) :
  40 < length (cellvals_of (first_cellstats w map st)) ->
  color_table_events w map st
  = EReadCommand (lit "r.stats") (r_stats_args map) (first_cellstats w map st)
    :: random_fallback map 40
    ++ color_table_write map (3 + length (trace st))
         (join [NEWLINE]
            (colors_str_of (cellvals_of (first_cellstats w map st))
               (pool w st))).
Proof.
  intros HN. unfold color_table_events. cbv zeta.
  rewrite pool_length.
  replace (40 <? length (cellvals_of (first_cellstats w map st))) with true
    by (symmetry; apply Nat.ltb_lt; assumption).
  rewrite length_app. cbn [length random_fallback].
  replace (length (trace st) + 3) with (3 + length (trace st)) by lia.
  reflexivity.
Qed.

Lemma color_table_events_no_label (w : world) (map : pystr) (st : state) :
  label_written (color_table_events w map st) = false.
Proof.
  unfold color_table_events, label_written. cbv zeta.
  destruct (length (pool w st)
            <? length (cellvals_of (first_cellstats w map st)));
    reflexivity.
Qed.

Lemma streams_in_order_feed (tr : list event) :
  forall n : nat,
    length tr <= n ->
    streams_in_order tr = true ->
    forall (pre post : list event) (prog : pystr) (kw : kwargs) (p : process),
      tr = pre ++ EFeedCommand prog kw p :: post ->
      exists (data : pystr) (post' : list event),
        post = EStdinWrite p data :: EStdinClose p :: EWait p :: post'.
Proof.
  intros n. revert tr.
  induction n as [|n IH]; intros tr Hlen Hord pre post prog kw p Htr.
  - destruct tr; [|cbn in Hlen; lia].
    destruct pre; discriminate Htr.
  - destruct tr as [|e tr1]; [destruct pre; discriminate Htr|].
    cbn [length] in Hlen.
    destruct pre as [|e' pre'].
    + cbn [app] in Htr. injection Htr as He Hpost. subst e tr1.
      cbn [streams_in_order] in Hord.
      destruct post as [|[] [|[] [|[] post']]]; try discriminate Hord.
      apply andb_true_iff in Hord. destruct Hord as [Hord _].
      apply andb_true_iff in Hord. destruct Hord as [Hord H3].
      apply andb_true_iff in Hord. destruct Hord as [H1 H2].
      apply Nat.eqb_eq in H1, H2, H3. subst.
      eexists. eexists. reflexivity.
    + cbn [app] in Htr. injection Htr as He Htr1. subst e'.
      destruct e; cbn [streams_in_order] in Hord; try discriminate Hord;
        try (apply (IH tr1 ltac:(lia) Hord pre' post prog kw p Htr1)).
      destruct tr1 as [|[] [|[] [|[] tr2]]]; try discriminate Hord.
      apply andb_true_iff in Hord. destruct Hord as [_ Hord].
      destruct pre' as [|e1 [|e2 [|e3 pre'']]];
        try discriminate Htr1.
      cbn [app] in Htr1. injection Htr1 as _ _ _ Htr2.
      cbn [length] in Hlen.
      apply (IH tr2 ltac:(lia) Hord pre'' post prog kw p Htr2).
Qed.

Lemma run_streams_in_order (w : world) (o : options) :
  streams_in_order (trace (snd (run w o))) = true.
Proof.
  rewrite main_run.
  destruct (v_colors_to_rast_found w); cbn [negb]; [|reflexivity].
  destruct (r_colors_fuzzy_lc_found w); cbn [negb]; [|reflexivity].
  destruct (truthy (color_column o)); [reflexivity|].
  destruct (has_cat_label (keys (category_listing w o))); [reflexivity|].
  random_cases; reflexivity.
Qed.

Lemma colors_str_of_lines (cellstats : pystr) (random_colors : list pystr) :
  Forall boundary_free random_colors ->
  Forall (fun l => boundary_free l /\ l <> [])
         (colors_str_of (cellvals_of cellstats) random_colors).
Proof.
  intros Hpool. unfold colors_str_of. apply Forall_map.
  apply Forall_forall. intros [val color] Hin. cbn [fst snd]. split.
  - apply Forall_app. split.
    + pose proof (cellvals_boundary_free cellstats) as Hv.
      rewrite Forall_forall in Hv. apply Hv.
      eapply in_combine_l. eassumption.
    + apply Forall_app. split; [apply boundary_freeb_spec; reflexivity|].
      rewrite Forall_forall in Hpool. apply Hpool.
      eapply In_firstn. eapply in_combine_r. eassumption.
  - intros E. apply app_eq_nil in E. destruct E as [_ E].
    discriminate E.
Qed.

(** * The claims *)

(** C1.  What the code does when the statistics list more than 40 values:
    it runs [r.colors color=random] and warns with the pool size 40, and
    then it goes on to the table all the same: it streams to [r.colors] a
    table of 40 rule lines made of the first 40 values and the pool.  The
    claim that no table is built from the pool fails. *)
Theorem table_built_beyond_pool (w : world) (map : pystr) (st : state) :
  let cellstats := first_cellstats w map st in
  let cellvals := cellvals_of cellstats in
  let random_colors := pool w st in
  let rules := colors_str_of cellvals random_colors in
  40 < length cellvals ->
  (exists (bc : process) (rest : list event),
      events_of (RandomColorStrategy map) w st
      = EReadCommand (lit "r.stats") (r_stats_args map) cellstats
        :: ERunCommand (lit "r.colors")
             [(lit "map", PStr map); (lit "color", PStr (lit "random"))]
        :: EWarning (lit "More cells values than 40: using r.colors color=random; r.colors.out_sld does not work correctly")
        :: color_table_write map bc (join [NEWLINE] rules)
        ++ ERasterInfo map (mapinfo_of w map st) :: rest)
  /\ length rules = 40
  /\ rule_lines (join [NEWLINE] rules) = rules
  /\ (forall (i : nat) (val color : pystr),
         nth_error cellvals i = Some val ->
         nth_error random_colors i = Some color ->
         nth_error rules i = Some (val ++ lit " " ++ color)).
Proof.
  intros cellstats cellvals random_colors rules HN.
  split; [|split; [|split]].
  - exists (3 + length (trace st)). eexists.
    rewrite RandomColorStrategy_events, color_table_events_beyond
      by assumption.
    reflexivity.
  - unfold rules. rewrite length_colors_str_of.
    unfold random_colors. rewrite pool_length. lia.
  - apply splitlines_join. apply colors_str_of_lines.
    apply pool_boundary_free.
  - intros i val color Hval Hcol.
    apply nth_error_colors_str_of; assumption.
Qed.

Lemma table_built_beyond_pool_witness :
  40 < length (cellvals_of
                 (first_cellstats scenario_41_world (lit "landcover")
                    scenario_41_start))
  /\ length (colors_str_of
               (cellvals_of
                  (first_cellstats scenario_41_world (lit "landcover")
                     scenario_41_start))
               (pool scenario_41_world scenario_41_start)) = 40.
Proof.
  assert (HN : 40 < length (cellvals_of
                              (first_cellstats scenario_41_world
                                 (lit "landcover") scenario_41_start)))
    by (vm_compute; lia).
  split; [exact HN|].
  pose proof (table_built_beyond_pool scenario_41_world (lit "landcover")
                scenario_41_start) as H.
  cbv zeta in H. destruct (H HN) as [_ [Hlen _]]. exact Hlen.
Defined.

(** C2.  A run that found both modules selects as follows.  With a colour
    column it runs [v.colors.to.rast] on [referencemap], [map],
    [color_column] and [class_column] as given, whatever the labels.
    Without one and with a label on every category it runs
    [r.colors.fuzzy_lc] on the map alone.  Otherwise it warns of the
    missing labels, in the words of source line 118, and goes on as the
    random strategy.  In each case the two other strategies leave no event
    in the log. *)
Theorem strategy_selection (w : world) (o : options) :
  v_colors_to_rast_found w = true ->
  r_colors_fuzzy_lc_found w = true ->
  (color_column o <> [] ->
   run w o
   = (Ok tt,
      {| trace :=
           gate_events w o
           ++ [EMessage (lit "Using colors from column <"
                         ++ color_column o ++ lit ">...");
               ERunCommand (lit "v.colors.to.rast")
                 [(lit "referencemap", PStr (referencemap o));
                  (lit "map", PStr (map_ o));
                  (lit "color_column", PStr (color_column o));
                  (lit "class_column", PStr (class_column o))]];
         draws := 0 |})
   /\ attribute_ran (trace (snd (run w o))) = true
   /\ fuzzy_ran (trace (snd (run w o))) = false
   /\ random_ran (trace (snd (run w o))) = false)
  /\ (color_column o = [] ->
      has_cat_label (keys (category_listing w o)) = true ->
      run w o
      = (Ok tt,
         {| trace :=
              gate_events w o
              ++ [EMessage (lit "Matching land cover classes...");
                  ERunCommand (lit "r.colors.fuzzy_lc")
                    [(lit "map", PStr (map_ o))]];
            draws := 0 |})
      /\ attribute_ran (trace (snd (run w o))) = false
      /\ fuzzy_ran (trace (snd (run w o))) = true
      /\ random_ran (trace (snd (run w o))) = false)
  /\ (color_column o = [] ->
      has_cat_label (keys (category_listing w o)) = false ->
      run w o
      = RandomColorStrategy (map_ o) w
          {| trace :=
               gate_events w o
               ++ [EWarning (lit "Input map has missing category labels. Setting random colors...")];
             draws := 0 |}
      /\ attribute_ran (trace (snd (run w o))) = false
      /\ fuzzy_ran (trace (snd (run w o))) = false
      /\ random_ran (trace (snd (run w o))) = true).
Proof.
  intros H1 H2. rewrite main_run, H1, H2. cbn [negb].
  split; [|split].
  - intros Hc.
    assert (Ht : truthy (color_column o) = true)
      by (destruct (color_column o); [contradiction | reflexivity]).
    rewrite Ht. repeat split; reflexivity.
  - intros Hc Hl. rewrite Hc, Hl. cbn [truthy]. repeat split; reflexivity.
  - intros Hc Hl. rewrite Hc, Hl. cbn [truthy].
    split; [reflexivity|].
    split; [|split].
    + apply RandomColorStrategy_delegates. reflexivity.
    + apply RandomColorStrategy_delegates. reflexivity.
    + apply RandomColorStrategy_queries.
Qed.

Lemma strategy_selection_witness :
  run scenario_B_world scenario_B_options
  = (Ok tt,
     {| trace :=
          gate_events scenario_B_world scenario_B_options
          ++ [EMessage (lit "Using colors from column <col>...");
              ERunCommand (lit "v.colors.to.rast")
                [(lit "referencemap", PStr (lit "refmap"));
                 (lit "map", PStr (lit "landcover"));
                 (lit "color_column", PStr (lit "col"));
                 (lit "class_column", PStr (lit "cls"))]];
        draws := 0 |})
  /\ attribute_ran (trace (snd (run scenario_B_world scenario_B_options))) = true
  /\ fuzzy_ran (trace (snd (run scenario_B_world scenario_B_options))) = false
  /\ random_ran (trace (snd (run scenario_B_world scenario_B_options))) = false.
Proof.
  destruct (@strategy_selection scenario_B_world scenario_B_options
              eq_refl eq_refl) as [H _].
  apply H. discriminate.
Defined.

(** C3.  When the statistics list N values and N is at most 40, the random
    strategy streams to [r.colors] a table of exactly N rule lines, read
    back from the payload as they were joined; the i-th line is the i-th
    value of the statistics, in their order, a blank and the i-th colour
    of the pool, which is the text [R:G:B] of the decimal numerals of
    three channels between 0 and 254, so that only the first N colours of
    the pool are used. *)
Theorem color_table_within_pool (w : world) (map : pystr) (st : state) :
  let decimal := fun z : Z => lit (NilZero.string_of_int (Z.to_int z)) in
  let cellstats := first_cellstats w map st in
  let cellvals := cellvals_of cellstats in
  let random_colors := pool w st in
  let rules := colors_str_of cellvals random_colors in
  length cellvals <= 40 ->
  (exists (bc : process) (rest : list event),
      events_of (RandomColorStrategy map) w st
      = EReadCommand (lit "r.stats") (r_stats_args map) cellstats
        :: color_table_write map bc (join [NEWLINE] rules)
        ++ ERasterInfo map (mapinfo_of w map st) :: rest)
  /\ length rules = length cellvals
  /\ rule_lines (join [NEWLINE] rules) = rules
  /\ (forall (i : nat) (val : pystr),
         nth_error cellvals i = Some val ->
         exists r g b : Z,
           nth_error (pool_from w (draws st) 0 colors_to_generate) i
           = Some (r, g, b)
           /\ r = (entropy w (draws st + 3 * i) mod 255)%Z
           /\ g = (entropy w (draws st + 3 * i + 1) mod 255)%Z
           /\ b = (entropy w (draws st + 3 * i + 2) mod 255)%Z
           /\ (0 <= r <= 254)%Z /\ (0 <= g <= 254)%Z /\ (0 <= b <= 254)%Z
           /\ nth_error random_colors i
              = Some (decimal r ++ lit ":" ++ decimal g ++ lit ":"
                      ++ decimal b)
           /\ nth_error rules i
              = Some (val ++ lit " " ++ decimal r ++ lit ":" ++ decimal g
                      ++ lit ":" ++ decimal b)).
Proof.
  intros decimal cellstats cellvals random_colors rules HN.
  split; [|split; [|split]].
  - exists (S (length (trace st))). eexists.
    rewrite RandomColorStrategy_events, color_table_events_within
      by assumption.
    reflexivity.
  - unfold rules. rewrite length_colors_str_of.
    unfold random_colors. rewrite pool_length. lia.
  - apply splitlines_join. apply colors_str_of_lines.
    apply pool_boundary_free.
  - intros i val Hval.
    assert (Hi : i < colors_to_generate).
    { apply Nat.lt_le_trans with (length cellvals); [|exact HN].
      apply nth_error_Some. congruence. }
    pose proof (pool_from_nth w (draws st) 0 colors_to_generate i Hi) as Hc.
    cbn [Nat.add] in Hc. unfold channels in Hc.
    assert (Hcol : nth_error random_colors i
                   = Some (color_of (channels w (draws st) i))).
    { unfold random_colors, pool. rewrite nth_error_map.
      rewrite (pool_from_nth w (draws st) 0 colors_to_generate i Hi).
      reflexivity. }
    exists (entropy w (draws st + 3 * i) mod 255)%Z,
           (entropy w (draws st + 3 * i + 1) mod 255)%Z,
           (entropy w (draws st + 3 * i + 2) mod 255)%Z.
    split; [exact Hc|].
    do 3 (split; [reflexivity|]).
    do 3 (split; [apply mod_255_range|]).
    split; [exact Hcol|].
    apply (nth_error_colors_str_of cellvals random_colors i val _ Hval Hcol).
Qed.

Lemma color_table_within_pool_witness :
  length (cellvals_of
            (first_cellstats scenario_C_world (lit "landcover")
               scenario_C_start)) <= 40
  /\ rule_lines
       (join [NEWLINE]
          (colors_str_of
             (cellvals_of
                (first_cellstats scenario_C_world (lit "landcover")
                   scenario_C_start))
             (pool scenario_C_world scenario_C_start)))
     = [lit "10 13:110:207"; lit "11 49:146:243"; lit "12 85:182:24";
        lit "13 121:218:60"; lit "14 157:254:96"].
Proof.
  assert (HN : length (cellvals_of
                         (first_cellstats scenario_C_world (lit "landcover")
                            scenario_C_start)) <= 40)
    by (vm_compute; lia).
  split; [exact HN|].
  pose proof (color_table_within_pool scenario_C_world (lit "landcover")
                scenario_C_start) as H.
  cbv zeta in H. destruct (H HN) as [_ [_ [Hlines _]]].
  rewrite Hlines. vm_compute. reflexivity.
Defined.

(** C4.  The random strategy starts the label writer [r.category] if and
    only if the datatype of the map is CELL, whichever way the colour
    table went.  It then asks the statistics again, after the datatype,
    and writes one line [value|value] for every line of that second
    answer.  For any other datatype the strategy ends with the datatype
    query. *)
Theorem labels_written_iff_CELL (w : world) (map : pystr) (st : state) :
  let evs := events_of (RandomColorStrategy map) w st in
  let mapinfo := mapinfo_of w map st in
  let cellstats :=
    read_command_ans w (log_after_info w map st) (lit "r.stats")
      (r_stats_args map) in
  (label_written evs = true
   <-> getitem mapinfo (lit "datatype") = Some (PStr (lit "CELL")))
  /\ (getitem mapinfo (lit "datatype") = Some (PStr (lit "CELL")) ->
      exists cat_proc : process,
        evs = color_table_events w map st
              ++ ERasterInfo map mapinfo
              :: EReadCommand (lit "r.stats") (r_stats_args map) cellstats
              :: label_write map cat_proc
                   (concat
                      (List.map
                         (fun val => val ++ lit "|" ++ val ++ [NEWLINE])
                         (cellvals_of cellstats))))
  /\ (getitem mapinfo (lit "datatype") <> Some (PStr (lit "CELL")) ->
      evs = color_table_events w map st ++ [ERasterInfo map mapinfo]).
Proof.
  intros evs mapinfo cellstats. unfold evs.
  rewrite RandomColorStrategy_events. fold mapinfo.
  rewrite <- datatype_is_CELL_iff.
  destruct (datatype_is_CELL mapinfo) eqn:E.
  - split; [|split].
    + split; [reflexivity|]. intros _.
      unfold label_written. rewrite existsb_app.
      apply orb_true_iff. right. reflexivity.
    + intros _. eexists. unfold label_events. cbv zeta.
      rewrite category_text_of_lines. reflexivity.
    + intros H. contradiction H. reflexivity.
  - split; [|split].
    + split; [|intros H; discriminate H].
      unfold label_written. rewrite existsb_app.
      fold (label_written (color_table_events w map st)).
      rewrite color_table_events_no_label. cbn. intros H. discriminate H.
    + intros H. discriminate H.
    + intros _. reflexivity.
Qed.

Lemma labels_written_iff_CELL_witness :
  getitem (mapinfo_of scenario_requery_world (lit "landcover")
             scenario_requery_start) (lit "datatype")
  = Some (PStr (lit "CELL"))
  /\ exists cat_proc : process,
      events_of (RandomColorStrategy (lit "landcover"))
        scenario_requery_world scenario_requery_start
      = color_table_events scenario_requery_world (lit "landcover")
          scenario_requery_start
        ++ ERasterInfo (lit "landcover") [(lit "datatype", PStr (lit "CELL"))]
        :: EReadCommand (lit "r.stats") (r_stats_args (lit "landcover"))
             (stats_lines 20 3)
        :: label_write (lit "landcover") cat_proc
             (lit "20|20" ++ [NEWLINE] ++ lit "21|21" ++ [NEWLINE]
              ++ lit "22|22" ++ [NEWLINE]).
Proof.
  assert (HCELL : getitem (mapinfo_of scenario_requery_world (lit "landcover")
                             scenario_requery_start) (lit "datatype")
                  = Some (PStr (lit "CELL")))
    by (vm_compute; reflexivity).
  split; [exact HCELL|].
  pose proof (labels_written_iff_CELL scenario_requery_world (lit "landcover")
                scenario_requery_start) as H.
  cbv zeta in H. destruct H as [_ [H _]].
  destruct (H HCELL) as [cat_proc Hevs].
  exists cat_proc. rewrite Hevs. vm_compute. reflexivity.
Defined.

(** C5.  The flag [has_cat_label] is true exactly when every entry of the
    category listing contains the tab that separates value and label; one
    entry without it makes the flag false, whatever the other entries. *)
Theorem has_cat_label_all_or_nothing (map_class_labels : list pystr) :
  (has_cat_label map_class_labels = true
   <-> Forall (fun label => In TAB label) map_class_labels)
  /\ ((exists label, In label map_class_labels /\ ~ In TAB label)
      -> has_cat_label map_class_labels = false).
Proof.
  rewrite has_cat_label_forallb. split.
  - rewrite forallb_forall, Forall_forall. split; intros H l Hl.
    + apply contains_char_In. now apply H.
    + apply contains_char_In. now apply H.
  - intros [l [Hl Hno]].
    destruct (forallb (contains_char TAB) map_class_labels) eqn:E;
      [|reflexivity].
    rewrite forallb_forall in E. apply E in Hl.
    apply contains_char_In in Hl. contradiction.
Qed.

Lemma has_cat_label_all_or_nothing_witness :
  has_cat_label (keys partly_labelled) = false.
Proof.
  apply (proj2 (has_cat_label_all_or_nothing (keys partly_labelled))).
  exists (lit "3"). split.
  - simpl. right. right. left. reflexivity.
  - vm_compute. intros [H | []]. discriminate H.
Defined.

(** C6.  The loop of source lines 123-128 leaves a pool of exactly 40
    colours and calls no service.  Each colour of the pool is the text
    [R:G:B] of the decimal numerals of three channels, and each channel
    lies between 0 and 254: 255 is never drawn. *)
Theorem pool_has_40_colors_below_255 (w : world) (st : state) :
  let decimal := fun z : Z => lit (NilZero.string_of_int (Z.to_int z)) in
  exists (chans : list (Z * Z * Z)) (random_colors : list pystr)
         (st' : state),
    generate_colors colors_to_generate [] w st = (Ok random_colors, st')
    /\ random_colors = map color_of chans
    /\ length chans = 40
    /\ length random_colors = 40
    /\ Forall in_channel_range chans
    /\ trace st' = trace st
    /\ (forall i : nat,
           i < 40 ->
           exists r g b : Z,
             nth_error chans i = Some (r, g, b)
             /\ (0 <= r <= 254)%Z /\ (0 <= g <= 254)%Z /\ (0 <= b <= 254)%Z
             /\ nth_error random_colors i
                = Some (decimal r ++ lit ":" ++ decimal g ++ lit ":"
                        ++ decimal b)).
Proof.
  intros decimal.
  exists (pool_from w (draws st) 0 colors_to_generate).
  eexists. eexists. split; [apply generate_colors_run|].
  split; [reflexivity|].
  rewrite length_map, pool_from_length.
  split; [reflexivity|]. split; [reflexivity|].
  split; [apply pool_from_range|]. split; [reflexivity|].
  intros i Hi.
  pose proof (pool_from_nth w (draws st) 0 colors_to_generate i Hi) as Hc.
  exists (entropy w (draws st + 3 * (0 + i)) mod 255)%Z,
         (entropy w (draws st + 3 * (0 + i) + 1) mod 255)%Z,
         (entropy w (draws st + 3 * (0 + i) + 2) mod 255)%Z.
  split; [exact Hc|].
  do 3 (split; [apply mod_255_range|]).
  rewrite nth_error_map, Hc. reflexivity.
Qed.

(** C7.  When one of the two modules is not found, the run ends in
    [grass.fatal] and the log holds nothing but the probes before the fatal
    message: the category listing was not asked for and no strategy ran.
    The message names the module that was not found and ends in an install
    line, which is [g.extension r.colors.fuzzy_lc url=...] for either
    module, also when [v.colors.to.rast] is the one not found (source
    lines 82-84). *)
Theorem missing_module_is_fatal (w : world) (o : options) :
  v_colors_to_rast_found w = false \/ r_colors_fuzzy_lc_found w = false ->
  exists (msg : pystr) (probes : list event),
    run w o = (Fatal msg, {| trace := probes ++ [EFatal msg]; draws := 0 |})
    /\ Forall is_probe probes
    /\ (exists head : pystr,
           msg = head ++ [10%N] ++ lit "g.extension r.colors.fuzzy_lc url=...")
    /\ ((v_colors_to_rast_found w = false
         /\ probes
            = [EFindProgram (lit "v.colors.to.rast") [lit "--help"] false]
         /\ msg
            = lit "The 'v.colors.to.rast' module was not found, install it first:"
              ++ [10%N] ++ lit "g.extension r.colors.fuzzy_lc url=...")
        \/ (v_colors_to_rast_found w = true
            /\ r_colors_fuzzy_lc_found w = false
            /\ probes
               = [EFindProgram (lit "v.colors.to.rast") [lit "--help"] true;
                  EFindProgram (lit "r.colors.fuzzy_lc") [lit "--help"] false]
            /\ msg
               = lit "The 'r.colors.fuzzy_lc' module was not found, install it first:"
                 ++ [10%N] ++ lit "g.extension r.colors.fuzzy_lc url=...")).
Proof.
  intros H. rewrite main_run. unfold first_probe, second_probe.
  destruct (v_colors_to_rast_found w) eqn:H1; cbn [negb].
  - destruct H as [H | H]; [discriminate|]. rewrite H. cbn [negb].
    exists r_colors_fuzzy_lc_missing.
    exists [EFindProgram (lit "v.colors.to.rast") [lit "--help"] true;
            EFindProgram (lit "r.colors.fuzzy_lc") [lit "--help"] false].
    split; [reflexivity|]. split; [repeat constructor|].
    split; [eexists; reflexivity|].
    right. repeat split.
  - exists v_colors_to_rast_missing.
    exists [EFindProgram (lit "v.colors.to.rast") [lit "--help"] false].
    split; [reflexivity|]. split; [repeat constructor|].
    split; [eexists; reflexivity|].
    left. repeat split.
Qed.

Lemma missing_module_is_fatal_witness :
  run (sample_world true false fully_labelled [] [] (lit "CELL"))
      (only_map (lit "landcover"))
  = (Fatal
       (lit "The 'r.colors.fuzzy_lc' module was not found, install it first:"
        ++ [10%N] ++ lit "g.extension r.colors.fuzzy_lc url=..."),
     {| trace :=
          [EFindProgram (lit "v.colors.to.rast") [lit "--help"] true;
           EFindProgram (lit "r.colors.fuzzy_lc") [lit "--help"] false;
           EFatal
             (lit "The 'r.colors.fuzzy_lc' module was not found, install it first:"
              ++ [10%N] ++ lit "g.extension r.colors.fuzzy_lc url=...")];
        draws := 0 |}).
Proof.
  destruct (missing_module_is_fatal
              (sample_world true false fully_labelled [] [] (lit "CELL"))
              (only_map (lit "landcover")) (or_intror eq_refl))
    as [msg [probes [Hrun [_ [_ [[Hv _] | [_ [_ [Hp Hm]]]]]]]]].
  - discriminate Hv.
  - rewrite Hrun, Hp, Hm. reflexivity.
Defined.

(** C8.  In the log of any run, a process started by [grass.feed_command]
    is at once followed by the write of its whole input, then by the close
    of its input, then by the wait for its end: whatever the script does
    next (the datatype query after the colour table, nothing after the
    labels) comes after that wait. *)
Theorem streams_closed_and_awaited (w : world) (o : options)
    (pre post : list event) (prog : pystr) (kw : kwargs) (p : process) :
  trace (snd (run w o)) = pre ++ EFeedCommand prog kw p :: post ->
  exists (data : pystr) (post' : list event),
    post = EStdinWrite p data :: EStdinClose p :: EWait p :: post'.
Proof.
  intros Htr.
  apply (streams_in_order_feed (trace (snd (run w o)))
           (length (trace (snd (run w o)))) (le_n _)
           (run_streams_in_order w o) pre post prog kw p Htr).
Qed.

Lemma streams_closed_and_awaited_witness :
  exists (data : pystr) (post' : list event),
    skipn 6 (trace (snd (run scenario_C_world (only_map (lit "landcover")))))
    = EStdinWrite 5 data :: EStdinClose 5 :: EWait 5 :: post'.
Proof.
  apply (streams_closed_and_awaited scenario_C_world
           (only_map (lit "landcover"))
           (firstn 5
              (trace (snd (run scenario_C_world (only_map (lit "landcover"))))))
           (skipn 6
              (trace (snd (run scenario_C_world (only_map (lit "landcover"))))))
           (lit "r.colors")
           [(lit "quiet", PBool true); (lit "map", PStr (lit "landcover"));
            (lit "rules", PStr (lit "-"))]
           5).
  vm_compute. reflexivity.
Defined.

(** C9.  When the statistics list no value, the random strategy still
    starts [r.colors], writes the empty text to it, closes its input and
    waits for it, and then goes on to ask for the datatype: the step
    neither stops the run nor raises. *)
Theorem empty_statistics_empty_table (w : world) (map : pystr) (st : state) :
  cellvals_of (first_cellstats w map st) = [] ->
  (exists (bc : process) (rest : list event),
      events_of (RandomColorStrategy map) w st
      = EReadCommand (lit "r.stats") (r_stats_args map)
          (first_cellstats w map st)
        :: color_table_write map bc []
        ++ ERasterInfo map (mapinfo_of w map st) :: rest)
  /\ (forall msg : pystr, fst (RandomColorStrategy map w st) <> Fatal msg)
  /\ (getitem (mapinfo_of w map st) (lit "datatype") <> None ->
      fst (RandomColorStrategy map w st) = Ok tt).
Proof.
  intros HN. split; [|split].
  - exists (S (length (trace st))). eexists.
    rewrite RandomColorStrategy_events, color_table_events_within
      by (rewrite HN; cbn; lia).
    rewrite HN. reflexivity.
  - intros msg. rewrite RandomColorStrategy_outcome.
    destruct (getitem (mapinfo_of w map st) (lit "datatype")); discriminate.
  - intros Hdt. rewrite RandomColorStrategy_outcome.
    destruct (getitem (mapinfo_of w map st) (lit "datatype"));
      [reflexivity | contradiction].
Qed.

Lemma empty_statistics_empty_table_witness :
  cellvals_of
    (first_cellstats scenario_empty_world (lit "landcover")
       scenario_empty_start) = []
  /\ fst (RandomColorStrategy (lit "landcover") scenario_empty_world
            scenario_empty_start) = Ok tt.
Proof.
  split; [reflexivity|].
  apply (empty_statistics_empty_table scenario_empty_world (lit "landcover")
           scenario_empty_start eq_refl).
  vm_compute. discriminate.
Defined.

(** C10.  When the category listing is empty the flag is true, so that a
    run without a colour column matches the classes and makes no step of
    the random strategy. *)
Theorem empty_listing_selects_fuzzy (w : world) (o : options) :
  v_colors_to_rast_found w = true ->
  r_colors_fuzzy_lc_found w = true ->
  color_column o = [] ->
  category_listing w o = [] ->
  has_cat_label (keys (category_listing w o)) = true
  /\ run w o
     = (Ok tt, {| trace := gate_events w o ++ fuzzy_events o; draws := 0 |}).
Proof.
  intros H1 H2 Hc Hl. rewrite main_run, H1, H2, Hc, Hl. split; reflexivity.
Qed.

Lemma empty_listing_selects_fuzzy_witness :
  has_cat_label
    (keys (category_listing empty_listing_world (only_map (lit "landcover"))))
  = true
  /\ run empty_listing_world (only_map (lit "landcover"))
     = (Ok tt,
        {| trace := gate_events empty_listing_world (only_map (lit "landcover"))
                    ++ fuzzy_events (only_map (lit "landcover"));
           draws := 0 |}).
Proof.
  apply empty_listing_selects_fuzzy; reflexivity.
Defined.

(** * The scenarios of the specification, run *)

(** Scenario A: three labelled categories and no colour column. *)
Example scenario_A_run :
  run (sample_world true true fully_labelled (stats_lines 1 3)
         (stats_lines 1 3) (lit "CELL"))
      (only_map (lit "landcover"))
  = (Ok tt,
     {| trace :=
          [EFindProgram (lit "v.colors.to.rast") [lit "--help"] true;
           EFindProgram (lit "r.colors.fuzzy_lc") [lit "--help"] true;
           EParseCommand (lit "r.category")
             [(lit "map", PStr (lit "landcover"));
              (lit "separator", PStr (lit "tab"))]
             fully_labelled;
           EMessage (lit "Matching land cover classes...");
           ERunCommand (lit "r.colors.fuzzy_lc")
             [(lit "map", PStr (lit "landcover"))]];
        draws := 0 |}).
Proof. vm_compute. reflexivity. Qed.

Example scenario_C_table :
  colors_str_of
    (cellvals_of
       (first_cellstats scenario_C_world (lit "landcover") scenario_C_start))
    (pool scenario_C_world scenario_C_start)
  = [lit "10 13:110:207"; lit "11 49:146:243"; lit "12 85:182:24";
     lit "13 121:218:60"; lit "14 157:254:96"].
Proof. vm_compute. reflexivity. Qed.

(** Scenario C: five values, an integer raster. *)
Example scenario_C_run :
  run scenario_C_world (only_map (lit "landcover"))
  = (Ok tt,
     {| trace :=
          [EFindProgram (lit "v.colors.to.rast") [lit "--help"] true;
           EFindProgram (lit "r.colors.fuzzy_lc") [lit "--help"] true;
           EParseCommand (lit "r.category")
             [(lit "map", PStr (lit "landcover"));
              (lit "separator", PStr (lit "tab"))]
             partly_labelled;
           EWarning (lit "Input map has missing category labels. Setting random colors...");
           EReadCommand (lit "r.stats") (r_stats_args (lit "landcover"))
             (stats_lines 10 5);
           EFeedCommand (lit "r.colors")
             [(lit "quiet", PBool true); (lit "map", PStr (lit "landcover"));
              (lit "rules", PStr (lit "-"))] 5;
           EStdinWrite 5
             (join [NEWLINE]
                [lit "10 13:110:207"; lit "11 49:146:243"; lit "12 85:182:24";
                 lit "13 121:218:60"; lit "14 157:254:96"]);
           EStdinClose 5;
           EWait 5;
           ERasterInfo (lit "landcover") [(lit "datatype", PStr (lit "CELL"))];
           EReadCommand (lit "r.stats") (r_stats_args (lit "landcover"))
             (stats_lines 10 5);
           EFeedCommand (lit "r.category")
             [(lit "map", PStr (lit "landcover"));
              (lit "rules", PStr (lit "-"));
              (lit "separator", PStr (lit "pipe"))] 11;
           EStdinWrite 11
             (lit "10|10" ++ [NEWLINE] ++ lit "11|11" ++ [NEWLINE]
              ++ lit "12|12" ++ [NEWLINE] ++ lit "13|13" ++ [NEWLINE]
              ++ lit "14|14" ++ [NEWLINE]);
           EStdinClose 11;
           EWait 11];
        draws := 120 |}).
Proof. vm_compute. reflexivity. Qed.

(** The same raster with 41 values: the log holds the random assignment
    of [r.colors], the warning, and after them a table of 40 rule lines,
    the first of which gives the value 1 the first colour of the pool. *)
Example scenario_41_run :
  let tr := trace (snd (run scenario_41_world (only_map (lit "landcover")))) in
  nth_error tr 5
  = Some (ERunCommand (lit "r.colors")
            [(lit "map", PStr (lit "landcover"));
             (lit "color", PStr (lit "random"))])
  /\ nth_error tr 6
     = Some (EWarning (lit "More cells values than 40: using r.colors color=random; r.colors.out_sld does not work correctly"))
  /\ nth_error tr 7
     = Some (EFeedCommand (lit "r.colors")
               [(lit "quiet", PBool true); (lit "map", PStr (lit "landcover"));
                (lit "rules", PStr (lit "-"))] 7)
  /\ match nth_error tr 8 with
     | Some (EStdinWrite 7 data) =>
         length (rule_lines data) = 40
         /\ nth_error (rule_lines data) 0 = Some (lit "1 13:110:207")
     | _ => False
     end.
Proof. vm_compute. repeat split. Qed.

(** * Further properties of the script *)

(** ** The values read from the statistics *)

Lemma split_head_no_sep (sep : N) (s : pystr) : ~ In sep (split_head sep s).
Proof.
  induction s as [|c s IH]; cbn [split_head]; [intros []|].
  destruct (N.eqb c sep) eqn:E; [intros []|].
  intros [H | H]; [|now apply IH].
  subst. rewrite N.eqb_refl in E. discriminate E.
Qed.

Lemma split_head_app (sep : N) (v rest : pystr) :
  ~ In sep v -> split_head sep (v ++ sep :: rest) = v.
Proof.
  induction v as [|c v IH]; intros Hv; cbn [app split_head].
  - now rewrite N.eqb_refl.
  - destruct (N.eqb c sep) eqn:E.
    + apply N.eqb_eq in E. subst. contradiction Hv. now left.
    + f_equal. apply IH. intros H. apply Hv. now right.
Qed.

Lemma splitlines_from_terminated (l rest : pystr) :
  boundary_free l ->
  forall after_cr : bool,
    splitlines_from after_cr [] (l ++ NEWLINE :: rest)
    = (if (after_cr && match l with [] => true | _ :: _ => false end)%bool
       then splitlines_from false [] rest
       else l :: splitlines_from false [] rest).
Proof.
  intros Hfree after_cr. destruct l as [|c l].
  - cbn [app splitlines_from].
    change (N.eqb NEWLINE NEWLINE) with true.
    destruct after_cr; reflexivity.
  - rewrite andb_false_r.
    rewrite splitlines_from_line by (assumption || discriminate).
    rewrite app_nil_r. cbn [splitlines_from].
    change (N.eqb NEWLINE NEWLINE && false)%bool with false.
    change (is_line_boundary NEWLINE) with true.
    change (N.eqb NEWLINE CR) with false.
    cbv iota. now rewrite rev_involutive.
Qed.

(** Lines without line breaks are got back from the text in which each is
    ended by a newline. *)
Lemma splitlines_terminated (lines : list pystr) :
  Forall boundary_free lines ->
  splitlines (concat (map (fun l => l ++ [NEWLINE]) lines)) = lines.
Proof.
  unfold splitlines.
  induction lines as [|l ls IH]; intros H; [reflexivity|].
  inversion H as [|l' ls' Hl Hls]; subst.
  cbn [map concat]. rewrite <- app_assoc. cbn [app].
  rewrite splitlines_from_terminated by assumption.
  cbn [andb]. f_equal. now apply IH.
Qed.

Lemma splitlines_from_nil (s : pystr) :
  forall (after_cr : bool) (cur : pystr),
    splitlines_from after_cr cur s = [] ->
    cur = [] /\ (s = [] \/ (after_cr = true /\ s = [NEWLINE])).
Proof.
  induction s as [|c s IH]; intros after_cr cur H; cbn [splitlines_from] in H.
  - destruct cur; [split; [reflexivity | now left] | discriminate H].
  - destruct (N.eqb c NEWLINE && after_cr)%bool eqn:E.
    + apply andb_true_iff in E. destruct E as [Ec Ecr].
      apply N.eqb_eq in Ec. subst.
      apply IH in H. destruct H as [Hcur [Hs | [Hf _]]];
        [|discriminate Hf].
      subst. split; [reflexivity|]. right. split; reflexivity.
    + destruct (is_line_boundary c); [discriminate H|].
      apply IH in H. destruct H as [Hcur _]. discriminate Hcur.
Qed.

(** X1.  No value the script reads from the statistics contains a pipe or
    a line break, and there is one value for each line of the output. *)
Theorem cellvals_clean (cellstats : pystr) :
  Forall clean_value (cellvals_of cellstats)
  /\ length (cellvals_of cellstats) = length (splitlines cellstats).
Proof.
  split.
  - unfold cellvals_of. apply Forall_map.
    eapply Forall_impl; [|apply splitlines_boundary_free].
    intros l Hl. split.
    + apply split_head_no_sep.
    + now apply split_head_boundary_free.
  - unfold cellvals_of. apply length_map.
Qed.

(** X2.  When [r.stats] prints a line [value|count] for each value, the
    values the script reads are these values, in their order, provided no
    value holds a pipe or a line break and no count holds a line break. *)
Theorem stats_values_read_back (rows : list (pystr * pystr)) :
  Forall (fun row => clean_value (fst row) /\ boundary_free (snd row)) rows ->
  cellvals_of (stats_output rows) = map fst rows.
Proof.
  intros Hrows. unfold cellvals_of, stats_output.
  replace (map (fun row : pystr * pystr =>
                  fst row ++ [PIPE] ++ snd row ++ [NEWLINE]) rows)
    with (map (fun l => l ++ [NEWLINE])
              (map (fun row : pystr * pystr => fst row ++ PIPE :: snd row)
                   rows)).
  2:{ rewrite map_map. apply map_ext. intros [v c]. cbn [fst snd app].
      rewrite <- app_assoc. reflexivity. }
  rewrite splitlines_terminated.
  - rewrite map_map. apply map_ext_in. intros [v c] Hin. cbn [fst snd].
    rewrite Forall_forall in Hrows. apply Hrows in Hin.
    destruct Hin as [[Hpipe _] _]. now apply split_head_app.
  - apply Forall_map. eapply Forall_impl; [|exact Hrows].
    intros [v c] [[_ Hv] Hc]. cbn [fst snd] in *.
    apply Forall_app. split; [assumption|].
    constructor; [reflexivity | assumption].
Qed.

Lemma stats_values_read_back_witness :
  cellvals_of (stats_output [(lit "10", lit "7"); (lit "11", lit "3")])
  = [lit "10"; lit "11"].
Proof.
  apply (stats_values_read_back [(lit "10", lit "7"); (lit "11", lit "3")]).
  repeat constructor;
    try (apply boundary_freeb_spec; reflexivity);
    vm_compute; intuition discriminate.
Defined.

Lemma rule_lines_category_text (cellstats : pystr) :
  rule_lines (category_text_of cellstats)
  = map (fun val => val ++ lit "|" ++ val) (cellvals_of cellstats).
Proof.
  rewrite category_text_of_lines. unfold rule_lines.
  replace (map (fun val => val ++ lit "|" ++ val ++ [NEWLINE])
               (cellvals_of cellstats))
    with (map (fun l => l ++ [NEWLINE])
              (map (fun val => val ++ lit "|" ++ val) (cellvals_of cellstats))).
  2:{ rewrite map_map. apply map_ext. intros v.
      now rewrite <- !app_assoc. }
  apply splitlines_terminated. apply Forall_map.
  eapply Forall_impl; [|apply cellvals_boundary_free].
  intros v Hv. apply Forall_app. split; [assumption|].
  apply Forall_app. split; [apply boundary_freeb_spec; reflexivity|].
  assumption.
Qed.

(** X3.  The text written to the label writer, read as lines, is one line
    [value|value] for each value of the statistics, in their order: as
    many lines as values, and the [i]-th line for the [i]-th value. *)
Theorem label_lines_read_back (cellstats : pystr) :
  rule_lines (category_text_of cellstats)
  = map (fun val => val ++ lit "|" ++ val) (cellvals_of cellstats)
  /\ length (rule_lines (category_text_of cellstats))
     = length (cellvals_of cellstats)
  /\ (forall (i : nat) (val : pystr),
         nth_error (cellvals_of cellstats) i = Some val ->
         nth_error (rule_lines (category_text_of cellstats)) i
         = Some (val ++ lit "|" ++ val)).
Proof.
  rewrite rule_lines_category_text. split; [reflexivity|]. split.
  - apply length_map.
  - intros i val Hval. rewrite nth_error_map.
    unfold pystr in *. now rewrite Hval.
Qed.

(** X4.  The script reads no value at all only from an empty output of the
    statistics: a blank line is a value already, the empty one.  So the
    colour table is empty exactly when [r.stats] printed nothing. *)
Theorem no_value_iff_no_output (w : world) (st : state) (cellstats : pystr) :
  (cellvals_of cellstats = [] <-> cellstats = [])
  /\ (colors_str_of (cellvals_of cellstats) (pool w st) = []
      <-> cellstats = [])
  /\ cellvals_of [NEWLINE] = [[]].
Proof.
  assert (Hvals : cellvals_of cellstats = [] <-> cellstats = []).
  { split; intros H; [|subst; reflexivity].
    unfold cellvals_of in H. apply map_eq_nil in H.
    apply splitlines_from_nil in H.
    destruct H as [_ [H | [H _]]]; [assumption | discriminate H]. }
  split; [exact Hvals|]. split; [|reflexivity].
  rewrite <- Hvals. split; intros H.
  - apply (f_equal (@length pystr)) in H.
    rewrite length_colors_str_of, pool_length in H. cbn [length] in H.
    destruct (cellvals_of cellstats); [reflexivity | cbn in H; lia].
  - rewrite H. reflexivity.
Qed.

(** ** The colour table and the fallback *)

Lemma colors_str_of_firstn (cellvals random_colors : list pystr) :
  colors_str_of cellvals random_colors
  = colors_str_of (firstn (length random_colors) cellvals) random_colors.
Proof.
  unfold colors_str_of. f_equal.
  rewrite <- !combine_firstn_l. apply combine_firstn_r.
Qed.

Lemma color_table_events_write (w : world) (map : pystr) (st : state) :
  exists (pre : list event) (bc : process),
    color_table_events w map st
    = pre ++ color_table_write map bc
               (join [NEWLINE]
                  (colors_str_of (cellvals_of (first_cellstats w map st))
                     (pool w st)))
    /\ existsb is_feed pre = false.
Proof.
  unfold color_table_events. cbv zeta.
  destruct (length (pool w st)
            <? length (cellvals_of (first_cellstats w map st))).
  - eexists [_; _; _]. eexists. split; reflexivity.
  - eexists [_]. eexists. split; reflexivity.
Qed.

(** X5.  Whatever the number N of values, the one table the random
    strategy streams to [r.colors] has min(N, 40) rule lines, never more
    than 40: the values after the 40th get no rule. *)
Theorem table_never_beyond_pool (w : world) (map : pystr) (st : state) :
  let cellvals := cellvals_of (first_cellstats w map st) in
  let rules := colors_str_of cellvals (pool w st) in
  (exists (pre : list event) (bc : process) (rest : list event),
      events_of (RandomColorStrategy map) w st
      = pre ++ color_table_write map bc (join [NEWLINE] rules)
        ++ ERasterInfo map (mapinfo_of w map st) :: rest
      /\ existsb is_feed pre = false)
  /\ rule_lines (join [NEWLINE] rules) = rules
  /\ length rules = Nat.min (length cellvals) 40
  /\ rules = colors_str_of (firstn 40 cellvals) (pool w st).
Proof.
  intros cellvals rules. split; [|split; [|split]].
  - destruct (color_table_events_write w map st) as [pre [bc [Hev Hpre]]].
    exists pre, bc. eexists. split; [|exact Hpre].
    rewrite RandomColorStrategy_events, Hev, <- app_assoc. reflexivity.
  - apply splitlines_join. apply colors_str_of_lines.
    apply pool_boundary_free.
  - unfold rules. now rewrite length_colors_str_of, pool_length.
  - unfold rules. rewrite (colors_str_of_firstn cellvals (pool w st)).
    now rewrite pool_length.
Qed.

(** X6.  The random strategy runs [r.colors color=random], and warns,
    exactly when the statistics list more than 40 values. *)
Theorem fallback_iff_beyond_pool (w : world) (map : pystr) (st : state) :
  let evs := events_of (RandomColorStrategy map) w st in
  let N := length (cellvals_of (first_cellstats w map st)) in
  random_assignment_ran evs = (40 <? N)
  /\ existsb is_warning evs = (40 <? N).
Proof.
  intros evs N. unfold evs, N, random_assignment_ran.
  rewrite RandomColorStrategy_events. unfold color_table_events. cbv zeta.
  rewrite pool_length.
  destruct (40 <? length (cellvals_of (first_cellstats w map st)));
    destruct (datatype_is_CELL (mapinfo_of w map st));
    split; reflexivity.
Qed.

(** ** How a run ends *)

(** X7.  The script calls [grass.fatal] for a module that is not found and
    for nothing else (source lines 80 and 88 are its only calls): a run ends
    in a fatal message if and only if a probe fails, and the message is that
    of the first module not found.  An exception, whether the [KeyError] of
    the datatype lookup or one of a module that fails, is not a fatal
    message, and the statement says nothing about it. *)
Theorem fatal_only_for_missing_module (w : world) (o : options) (msg : pystr) :
  fst (run w o) = Fatal msg
  <-> (v_colors_to_rast_found w = false
       /\ msg
          = lit "The 'v.colors.to.rast' module was not found, install it first:"
            ++ [10%N] ++ lit "g.extension r.colors.fuzzy_lc url=...")
      \/ (v_colors_to_rast_found w = true
          /\ r_colors_fuzzy_lc_found w = false
          /\ msg
             = lit "The 'r.colors.fuzzy_lc' module was not found, install it first:"
               ++ [10%N] ++ lit "g.extension r.colors.fuzzy_lc url=...").
Proof.
  rewrite main_run.
  destruct (v_colors_to_rast_found w); cbn [negb fst].
  2:{ split; intros H.
      - left. split; [reflexivity|]. now inversion H.
      - destruct H as [[_ H] | [H _]]; [now subst | discriminate H]. }
  destruct (r_colors_fuzzy_lc_found w); cbn [negb fst].
  2:{ split; intros H.
      - right. repeat split. now inversion H.
      - destruct H as [[H _] | [_ [_ H]]]; [discriminate H | now subst]. }
  assert (Hno : forall out : outcome unit,
             (forall m, out <> Fatal m) ->
             out = Fatal msg
             <-> (true = false /\ msg = lit "The 'v.colors.to.rast' module was not found, install it first:" ++ [10%N] ++ lit "g.extension r.colors.fuzzy_lc url=...")
                 \/ (true = true /\ true = false /\ msg = lit "The 'r.colors.fuzzy_lc' module was not found, install it first:" ++ [10%N] ++ lit "g.extension r.colors.fuzzy_lc url=...")).
  { intros out Hout. split; intros H.
    - contradiction (Hout msg).
    - destruct H as [[H _] | [_ [H _]]]; discriminate H. }
  destruct (truthy (color_column o)); cbn [fst];
    [apply Hno; discriminate|].
  destruct (has_cat_label (keys (category_listing w o))); cbn [fst];
    [apply Hno; discriminate|].
  apply Hno. intros m. rewrite RandomColorStrategy_outcome.
  destruct (getitem _ (lit "datatype")); discriminate.
Qed.

(** X8.  When the answer of [r.info] has no datatype, the random strategy
    raises the [KeyError] after the colour table: the table has been
    streamed to [r.colors] and waited for, the datatype has been asked
    for, and nothing is written to the label writer. *)
Theorem missing_datatype_raises_after_table
    (w : world) (map : pystr) (st : state) :
  getitem (mapinfo_of w map st) (lit "datatype") = None ->
  RandomColorStrategy map w st
  = (Raised (lit "KeyError"),
     {| trace := trace st ++ color_table_events w map st
                 ++ [ERasterInfo map (mapinfo_of w map st)];
        draws := draws st + 120 |})
  /\ (exists (pre : list event) (bc : process) (data : pystr),
         color_table_events w map st = pre ++ color_table_write map bc data)
  /\ label_written (events_of (RandomColorStrategy map) w st) = false.
Proof.
  intros Hdt. split; [|split].
  - rewrite RandomColorStrategy_run. cbv zeta.
    fold (log_before_info w map st). fold (mapinfo_of w map st).
    rewrite Hdt. unfold log_before_info. now rewrite <- app_assoc.
  - destruct (color_table_events_write w map st) as [pre [bc [Hev _]]].
    exists pre, bc. eexists. exact Hev.
  - rewrite RandomColorStrategy_events. unfold datatype_is_CELL.
    rewrite Hdt. unfold label_written. rewrite existsb_app.
    fold (label_written (color_table_events w map st)).
    rewrite color_table_events_no_label. reflexivity.
Qed.

Lemma missing_datatype_raises_after_table_witness :
  fst (RandomColorStrategy (lit "landcover") scenario_no_datatype_world
         (random_start scenario_no_datatype_world (only_map (lit "landcover"))))
  = Raised (lit "KeyError").
Proof.
  destruct (missing_datatype_raises_after_table scenario_no_datatype_world
              (lit "landcover")
              (random_start scenario_no_datatype_world
                 (only_map (lit "landcover")))
              eq_refl) as [Hrun _].
  rewrite Hrun. reflexivity.
Defined.

(** X9.  A run that takes the random strategy makes 120 random draws, the
    whole pool, whatever the number of values; any other run makes none. *)
Theorem draws_of_run (w : world) (o : options) :
  draws (snd (run w o))
  = if random_ran (trace (snd (run w o))) then 120 else 0.
Proof.
  rewrite main_run.
  destruct (v_colors_to_rast_found w); cbn [negb]; [|reflexivity].
  destruct (r_colors_fuzzy_lc_found w); cbn [negb]; [|reflexivity].
  destruct (truthy (color_column o)); [reflexivity|].
  destruct (has_cat_label (keys (category_listing w o))); [reflexivity|].
  rewrite RandomColorStrategy_queries.
  rewrite RandomColorStrategy_run. cbv zeta.
  destruct (getitem _ (lit "datatype")); reflexivity.
Qed.

(** X10.  Every module a run calls, it calls on the raster given as [map]:
    the category listing, the statistics, the datatype, the colour and
    label writers and the two collaborating modules get no other raster. *)
Theorem run_addresses_one_map (w : world) (o : options) :
  Forall (addresses (map_ o)) (trace (snd (run w o))).
Proof.
  rewrite main_run.
  destruct (v_colors_to_rast_found w); cbn [negb];
    [|repeat constructor].
  destruct (r_colors_fuzzy_lc_found w); cbn [negb];
    [|repeat constructor].
  destruct (truthy (color_column o)); [repeat constructor|].
  destruct (has_cat_label (keys (category_listing w o)));
    [repeat constructor|].
  random_cases;
    cbn [random_start trace gate_events app color_table_write label_write
         random_fallback];
    repeat constructor.
Qed.

(** ** Colours and labels together *)

(** X11.  For an integer raster with at most 40 values of which the
    statistics answer the second query as the first, the colour table and
    the labels go value by value: the [i]-th rule line colours the
    [i]-th value with the [i]-th colour of the pool and the [i]-th label
    line labels that same value with itself. *)
Theorem colours_and_labels_agree (w : world) (map : pystr) (st : state) :
  let cellstats := first_cellstats w map st in
  let cellvals := cellvals_of cellstats in
  length cellvals <= 40 ->
  datatype_is_CELL (mapinfo_of w map st) = true ->
  read_command_ans w (log_after_info w map st) (lit "r.stats")
    (r_stats_args map) = cellstats ->
  exists (bc cat_proc : process) (table labels : pystr),
    events_of (RandomColorStrategy map) w st
    = EReadCommand (lit "r.stats") (r_stats_args map) cellstats
      :: color_table_write map bc table
      ++ ERasterInfo map (mapinfo_of w map st)
      :: EReadCommand (lit "r.stats") (r_stats_args map) cellstats
      :: label_write map cat_proc labels
    /\ length (rule_lines table) = length cellvals
    /\ length (rule_lines labels) = length cellvals
    /\ (forall (i : nat) (val : pystr),
           nth_error cellvals i = Some val ->
           nth_error (rule_lines labels) i = Some (val ++ lit "|" ++ val)
           /\ exists color : pystr,
               nth_error (pool w st) i = Some color
               /\ nth_error (rule_lines table) i
                  = Some (val ++ lit " " ++ color)).
Proof.
  intros cellstats cellvals HN HCELL Hsame.
  exists (S (length (trace st))). eexists.
  exists (join [NEWLINE] (colors_str_of cellvals (pool w st))).
  exists (category_text_of cellstats).
  split; [|split; [|split]].
  - rewrite RandomColorStrategy_events, HCELL.
    rewrite color_table_events_within by assumption.
    unfold label_events. cbv zeta. rewrite Hsame. reflexivity.
  - unfold rule_lines. rewrite splitlines_join
      by (apply colors_str_of_lines; apply pool_boundary_free).
    rewrite length_colors_str_of, pool_length. lia.
  - rewrite rule_lines_category_text. apply length_map.
  - intros i val Hval. split.
    + rewrite rule_lines_category_text, nth_error_map.
      fold cellvals. unfold pystr in *. now rewrite Hval.
    + destruct (nth_error (pool w st) i) as [color|] eqn:Hcol.
      * exists color. split; [reflexivity|].
        unfold rule_lines. rewrite splitlines_join
          by (apply colors_str_of_lines; apply pool_boundary_free).
        now apply nth_error_colors_str_of.
      * apply nth_error_None in Hcol. rewrite pool_length in Hcol.
        assert (i < length cellvals) by (apply nth_error_Some; congruence).
        lia.
Qed.

Lemma colours_and_labels_agree_witness :
  exists (bc cat_proc : process) (table labels : pystr),
    events_of (RandomColorStrategy (lit "landcover")) scenario_C_world
      scenario_C_start
    = EReadCommand (lit "r.stats") (r_stats_args (lit "landcover"))
        (stats_lines 10 5)
      :: color_table_write (lit "landcover") bc table
      ++ ERasterInfo (lit "landcover")
           (mapinfo_of scenario_C_world (lit "landcover") scenario_C_start)
      :: EReadCommand (lit "r.stats") (r_stats_args (lit "landcover"))
           (stats_lines 10 5)
      :: label_write (lit "landcover") cat_proc labels.
Proof.
  assert (HN : length (cellvals_of
                         (first_cellstats scenario_C_world (lit "landcover")
                            scenario_C_start)) <= 40)
    by (vm_compute; lia).
  destruct (colours_and_labels_agree scenario_C_world (lit "landcover")
              scenario_C_start HN eq_refl eq_refl)
    as [bc [cat_proc [table [labels [Hevs _]]]]].
  exists bc, cat_proc, table, labels. exact Hevs.
Defined.

(** ** The verdict on the labels *)

Lemma forallb_Permutation {A} (f : A -> bool) (l1 l2 : list A) :
  Permutation l1 l2 -> forallb f l1 = forallb f l2.
Proof.
  induction 1 as [|x l l' _ IH|x y l|l l' l'' _ IH1 _ IH2]; cbn [forallb].
  - reflexivity.
  - now rewrite IH.
  - now rewrite !andb_assoc, (andb_comm (f y) (f x)).
  - now rewrite IH1.
Qed.

(** X12.  The verdict on the labels of two listings put together is the
    conjunction of the verdicts, and the verdict does not depend on the
    order in which [r.category] lists the categories. *)
Theorem has_cat_label_order (labels1 labels2 : list pystr) :
  has_cat_label (labels1 ++ labels2)
  = (has_cat_label labels1 && has_cat_label labels2)%bool
  /\ (Permutation labels1 labels2 ->
      has_cat_label labels1 = has_cat_label labels2).
Proof.
  rewrite !has_cat_label_forallb. split.
  - apply forallb_app.
  - apply forallb_Permutation.
Qed.

Lemma has_cat_label_order_witness :
  has_cat_label (keys partly_labelled)
  = has_cat_label (rev (keys partly_labelled)).
Proof.
  apply (has_cat_label_order (keys partly_labelled)
           (rev (keys partly_labelled))).
  apply Permutation_rev.
Defined.

(** X13.  For an integer raster with more than 40 values of which the
    statistics answer the second query as the first, every value gets a
    label line but only the first 40 get a rule line in the table that is
    streamed after the random assignment. *)
Theorem labels_cover_all_values (w : world) (map : pystr) (st : state) :
  let cellstats := first_cellstats w map st in
  let cellvals := cellvals_of cellstats in
  40 < length cellvals ->
  datatype_is_CELL (mapinfo_of w map st) = true ->
  read_command_ans w (log_after_info w map st) (lit "r.stats")
    (r_stats_args map) = cellstats ->
  exists (bc cat_proc : process) (table labels : pystr),
    events_of (RandomColorStrategy map) w st
    = EReadCommand (lit "r.stats") (r_stats_args map) cellstats
      :: random_fallback map 40
      ++ color_table_write map bc table
      ++ ERasterInfo map (mapinfo_of w map st)
      :: EReadCommand (lit "r.stats") (r_stats_args map) cellstats
      :: label_write map cat_proc labels
    /\ length (rule_lines table) = 40
    /\ length (rule_lines labels) = length cellvals
    /\ (forall (i : nat) (val : pystr),
           nth_error cellvals i = Some val ->
           nth_error (rule_lines labels) i = Some (val ++ lit "|" ++ val)).
Proof.
  intros cellstats cellvals HN HCELL Hsame.
  exists (3 + length (trace st)). eexists.
  exists (join [NEWLINE] (colors_str_of cellvals (pool w st))).
  exists (category_text_of cellstats).
  split; [|split; [|split]].
  - rewrite RandomColorStrategy_events, HCELL.
    rewrite color_table_events_beyond by assumption.
    unfold label_events. cbv zeta. rewrite Hsame.
    cbn [random_fallback app]. reflexivity.
  - unfold rule_lines. rewrite splitlines_join
      by (apply colors_str_of_lines; apply pool_boundary_free).
    rewrite length_colors_str_of, pool_length. lia.
  - rewrite rule_lines_category_text. apply length_map.
  - intros i val Hval.
    rewrite rule_lines_category_text, nth_error_map.
    fold cellvals. unfold pystr in *. now rewrite Hval.
Qed.

Lemma labels_cover_all_values_witness :
  exists (bc cat_proc : process) (table labels : pystr),
    events_of (RandomColorStrategy (lit "landcover")) scenario_41_world
      scenario_41_start
    = EReadCommand (lit "r.stats") (r_stats_args (lit "landcover"))
        (stats_lines 1 41)
      :: random_fallback (lit "landcover") 40
      ++ color_table_write (lit "landcover") bc table
      ++ ERasterInfo (lit "landcover")
           (mapinfo_of scenario_41_world (lit "landcover") scenario_41_start)
      :: EReadCommand (lit "r.stats") (r_stats_args (lit "landcover"))
           (stats_lines 1 41)
      :: label_write (lit "landcover") cat_proc labels
    /\ length (rule_lines table) = 40
    /\ length (rule_lines labels) = 41.
Proof.
  assert (HN : 40 < length (cellvals_of
                              (first_cellstats scenario_41_world
                                 (lit "landcover") scenario_41_start)))
    by (vm_compute; lia).
  destruct (labels_cover_all_values scenario_41_world (lit "landcover")
              scenario_41_start HN eq_refl eq_refl)
    as [bc [cat_proc [table [labels [Hevs [Htable [Hlabels _]]]]]]].
  exists bc, cat_proc, table, labels.
  split; [exact Hevs|]. split; [exact Htable|].
  rewrite Hlabels. vm_compute. reflexivity.
Defined.
